(** * DevFlow ApiIntegration plugin: a shallow embedding and its properties

    The development follows [src/plugins/python/ApiIntegrationPlugin/
    api_integration_plugin.py].  Python values are an inductive type, the
    plugin object and the outside world (HTTP client, clock, stderr) are an
    explicit state, exceptions are a result constructor, and the library
    functions the plugin calls (hashlib, hmac, base64, json, httpx) are either
    written out ([SHA256], [hmac_digest], [b64encode], [json_dumps]) or taken
    from a [Runtime] record. *)

From Stdlib Require Import ZArith QArith Qround List Ascii Bool Lia DecimalString.
From Stdlib Require Import Strings.String Strings.Byte.
Import ListNotations.
Close Scope Q_scope.
Open Scope list_scope.
Open Scope string_scope.
Open Scope Z_scope.

(** ** Bytes and strings

    A Python [str] is a Rocq [string] holding its UTF-8 encoding, so that
    [s.encode('utf-8')] is the list of its bytes and a character is ASCII
    exactly when its byte is below 128.  The strings that stand for a
    [str] are the well-formed ones ([valid_utf8] below). *)

Definition bytes := list byte.

Definition byte_to_Z (b : byte) : Z := Z.of_N (Byte.to_N b).

Definition byte_of_Z (z : Z) : byte :=
  match Byte.of_N (Z.to_N (z mod 256)) with
  | Some b => b
  | None => x00
  end.

(** [s.encode('utf-8')] and [b.decode('utf-8')] *)
Definition encode_utf8 (s : string) : bytes := list_byte_of_string s.
Definition decode_utf8 (b : bytes) : string := string_of_list_byte b.

Definition ascii_to_Z (c : ascii) : Z := Z.of_N (N_of_ascii c).
Definition ascii_of_Z (z : Z) : ascii := ascii_of_N (Z.to_N z).

Definition is_ascii_char (c : ascii) : bool := ascii_to_Z c <? 128.

Fixpoint is_ascii (s : string) : bool :=
  match s with
  | EmptyString => true
  | String c s' => is_ascii_char c && is_ascii s'
  end.

Fixpoint map_string (f : ascii -> ascii) (s : string) : string :=
  match s with
  | EmptyString => EmptyString
  | String c s' => String (f c) (map_string f s')
  end.

Definition upper_char (c : ascii) : ascii :=
  let n := ascii_to_Z c in
  if (97 <=? n) && (n <=? 122) then ascii_of_Z (n - 32) else c.

Definition lower_char (c : ascii) : ascii :=
  let n := ascii_to_Z c in
  if (65 <=? n) && (n <=? 90) then ascii_of_Z (n + 32) else c.

(** [s.upper()] and [s.lower()], on the ASCII letters. *)
Definition str_upper : string -> string := map_string upper_char.
Definition str_lower : string -> string := map_string lower_char.

(** [s.startswith(p)] *)
Definition startswith (s p : string) : bool := String.prefix p s.

(** [needle in hay] for two strings *)
Fixpoint str_contains (needle hay : string) : bool :=
  String.prefix needle hay ||
  match hay with
  | EmptyString => false
  | String _ hay' => str_contains needle hay'
  end.

(** [sep.join(parts)] *)
Fixpoint join (sep : string) (parts : list string) : string :=
  match parts with
  | [] => ""
  | [p] => p
  | p :: rest => p ++ sep ++ join sep rest
  end.

(** [str(n)] for an [int] *)
Definition str_of_int (n : Z) : string := NilZero.string_of_int (Z.to_int n).

Definition hex_digit (n : Z) : ascii :=
  if n <? 10 then ascii_of_Z (48 + n) else ascii_of_Z (87 + n).

Definition hex_byte (b : byte) : string :=
  let n := byte_to_Z b in
  String (hex_digit (n / 16)) (String (hex_digit (n mod 16)) EmptyString).

(** [b.hex()] *)
Fixpoint hex_of_bytes (bs : bytes) : string :=
  match bs with
  | [] => ""
  | b :: bs' => hex_byte b ++ hex_of_bytes bs'
  end.

(** ** hashlib.sha256 (FIPS 180-4) on 32-bit words kept in [Z] *)

Module SHA256.

Definition wrap (x : Z) : Z := x mod 2 ^ 32.
Definition add (x y : Z) : Z := wrap (x + y).
Definition rotr (n x : Z) : Z :=
  Z.lor (Z.shiftr x n) (wrap (Z.shiftl x (32 - n))).
Definition Ch (x y z : Z) : Z :=
  Z.lxor (Z.land x y) (Z.land (wrap (Z.lnot x)) z).
Definition Maj (x y z : Z) : Z :=
  Z.lxor (Z.lxor (Z.land x y) (Z.land x z)) (Z.land y z).
Definition Sigma0 (x : Z) : Z :=
  Z.lxor (Z.lxor (rotr 2 x) (rotr 13 x)) (rotr 22 x).
Definition Sigma1 (x : Z) : Z :=
  Z.lxor (Z.lxor (rotr 6 x) (rotr 11 x)) (rotr 25 x).
Definition sigma0 (x : Z) : Z :=
  Z.lxor (Z.lxor (rotr 7 x) (rotr 18 x)) (Z.shiftr x 3).
Definition sigma1 (x : Z) : Z :=
  Z.lxor (Z.lxor (rotr 17 x) (rotr 19 x)) (Z.shiftr x 10).

(** The round constants and the initial hash value, in decimal. *)
Definition K : list Z :=
  [ 1116352408; 1899447441; 3049323471; 3921009573;
    961987163; 1508970993; 2453635748; 2870763221;
    3624381080; 310598401; 607225278; 1426881987;
    1925078388; 2162078206; 2614888103; 3248222580;
    3835390401; 4022224774; 264347078; 604807628;
    770255983; 1249150122; 1555081692; 1996064986;
    2554220882; 2821834349; 2952996808; 3210313671;
    3336571891; 3584528711; 113926993; 338241895;
    666307205; 773529912; 1294757372; 1396182291;
    1695183700; 1986661051; 2177026350; 2456956037;
    2730485921; 2820302411; 3259730800; 3345764771;
    3516065817; 3600352804; 4094571909; 275423344;
    430227734; 506948616; 659060556; 883997877;
    958139571; 1322822218; 1537002063; 1747873779;
    1955562222; 2024104815; 2227730452; 2361852424;
    2428436474; 2756734187; 3204031479; 3329325298 ].

Definition H0 : list Z :=
  [ 1779033703; 3144134277; 1013904242; 2773480762;
    1359893119; 2600822924; 528734635; 1541459225 ].

(** big-endian encoding of [x] on [n] bytes *)
Fixpoint be_bytes (n : nat) (x : Z) : bytes :=
  match n with
  | O => []
  | S n' => (be_bytes n' (x / 256) ++ [byte_of_Z x])%list
  end.

Definition pad (msg : bytes) : bytes :=
  let l := Z.of_nat (List.length msg) in
  (msg ++ [x80] ++ repeat x00 (Z.to_nat ((55 - l) mod 64))
       ++ be_bytes 8 (8 * l))%list.

Fixpoint words_of (bs : bytes) : list Z :=
  match bs with
  | a :: b :: c :: d :: rest =>
      (((byte_to_Z a * 256 + byte_to_Z b) * 256 + byte_to_Z c) * 256
       + byte_to_Z d) :: words_of rest
  | _ => []
  end.

(** extends the schedule [w] by [n] words *)
Fixpoint schedule (n : nat) (w : list Z) : list Z :=
  match n with
  | O => w
  | S n' =>
      let t := List.length w in
      let at_ (k : nat) := nth (t - k) w 0 in
      schedule n'
        (w ++ [add (add (sigma1 (at_ 2%nat)) (at_ 7%nat))
                   (add (sigma0 (at_ 15%nat)) (at_ 16%nat))])%list
  end.

Definition regs : Type := Z * Z * Z * Z * Z * Z * Z * Z.

Definition round (r : regs) (kw : Z * Z) : regs :=
  let '(a, b, c, d, e, f, g, h) := r in
  let '(k, w) := kw in
  let t1 := add (add (add h (Sigma1 e)) (add (Ch e f g) k)) w in
  let t2 := add (Sigma0 a) (Maj a b c) in
  (add t1 t2, a, b, c, add d t1, e, f, g).

Definition regs_of (hs : list Z) : regs :=
  match hs with
  | [a; b; c; d; e; f; g; h] => (a, b, c, d, e, f, g, h)
  | _ => (0, 0, 0, 0, 0, 0, 0, 0)
  end.

Definition compress (hs : list Z) (block : bytes) : list Z :=
  let w := schedule 48 (words_of block) in
  let '(a, b, c, d, e, f, g, h) := fold_left round (combine K w) (regs_of hs) in
  match hs with
  | [a0; b0; c0; d0; e0; f0; g0; h0] =>
      [add a0 a; add b0 b; add c0 c; add d0 d;
       add e0 e; add f0 f; add g0 g; add h0 h]
  | _ => hs
  end.

Fixpoint blocks (n : nat) (hs : list Z) (bs : bytes) : list Z :=
  match n with
  | O => hs
  | S n' => blocks n' (compress hs (firstn 64 bs)) (skipn 64 bs)
  end.

Definition digest (msg : bytes) : bytes :=
  let p := pad msg in
  flat_map (be_bytes 4) (blocks (Nat.div (List.length p) 64) H0 p).

End SHA256.

(** ** hmac (RFC 2104) over a hash constructor *)

Record digestmod : Type := mkDigestmod {
  block_size : nat;
  digest : bytes -> bytes
}.

Definition sha256 : digestmod := mkDigestmod 64 SHA256.digest.

Definition xor_byte (x : Z) (b : byte) : byte :=
  byte_of_Z (Z.lxor x (byte_to_Z b)).

Definition hmac_digest (h : digestmod) (key msg : bytes) : bytes :=
  let key0 :=
    if (block_size h <? List.length key)%nat then digest h key else key in
  let key1 := (key0 ++ repeat x00 (block_size h - List.length key0))%list in
  digest h (map (xor_byte 92) key1
            ++ digest h (map (xor_byte 54) key1 ++ msg))%list.

(** [hmac.new(key, msg, h).hexdigest()] *)
Definition hmac_hexdigest (h : digestmod) (key msg : bytes) : string :=
  hex_of_bytes (hmac_digest h key msg).

(** ** base64 (RFC 4648), three bytes to four characters *)

Definition b64_alphabet : string :=
  "ABCDEFGHIJKLMNOPQRSTUVWXYZabcdefghijklmnopqrstuvwxyz0123456789+/".

Definition b64_char (n : Z) : ascii :=
  match String.get (Z.to_nat n) b64_alphabet with
  | Some c => c
  | None => "="%char
  end.

Fixpoint index_of (c : ascii) (s : string) : option Z :=
  match s with
  | EmptyString => None
  | String c' s' =>
      if Ascii.eqb c' c then Some 0 else option_map Z.succ (index_of c s')
  end.

Definition b64_index (c : ascii) : option Z := index_of c b64_alphabet.

Fixpoint b64encode_str (bs : bytes) : string :=
  match bs with
  | [] => ""
  | [a] =>
      let n := byte_to_Z a in
      String (b64_char (n / 4)) (String (b64_char (n mod 4 * 16)) "==")
  | [a; b] =>
      let n := byte_to_Z a * 256 + byte_to_Z b in
      String (b64_char (n / 1024))
        (String (b64_char (n / 16 mod 64))
           (String (b64_char (n mod 16 * 4)) "="))
  | a :: b :: c :: rest =>
      let n := (byte_to_Z a * 256 + byte_to_Z b) * 256 + byte_to_Z c in
      String (b64_char (n / 262144))
        (String (b64_char (n / 4096 mod 64))
           (String (b64_char (n / 64 mod 64))
              (String (b64_char (n mod 64)) (b64encode_str rest))))
  end.

(** [base64.b64encode(b)], a [bytes] value *)
Definition b64encode (bs : bytes) : bytes := encode_utf8 (b64encode_str bs).

(** [base64.b64decode(s)] on padded input over the alphabet; [None] is
    [binascii.Error]. *)
Fixpoint b64decode (s : string) : option bytes :=
  match s with
  | EmptyString => Some []
  | String c1 (String c2 (String c3 (String c4 rest))) =>
      match b64_index c1, b64_index c2 with
      | Some s1, Some s2 =>
          let b1 := byte_of_Z (s1 * 4 + s2 / 16) in
          match b64_index c3 with
          | None =>
              if Ascii.eqb c3 "=" && Ascii.eqb c4 "=" && String.eqb rest ""
              then Some [b1] else None
          | Some s3 =>
              let b2 := byte_of_Z (s2 mod 16 * 16 + s3 / 4) in
              match b64_index c4 with
              | None =>
                  if Ascii.eqb c4 "=" && String.eqb rest ""
                  then Some [b1; b2] else None
              | Some s4 =>
                  let b3 := byte_of_Z (s3 mod 4 * 64 + s4) in
                  option_map (fun tl => b1 :: b2 :: b3 :: tl) (b64decode rest)
              end
          end
      | _, _ => None
      end
  | _ => None
  end.

(** ** Python values

    The values that JSON input and the plugin's results are made of.  A
    [dict] keeps its entries in insertion order; its keys are strings. *)

#[warnings="-register-all"]
Inductive pyval : Type :=
| PNone
| PBool (b : bool)
| PInt (n : Z)
| PFloat (q : Q)
| PStr (s : string)
| PList (items : list pyval)
| PDict (entries : list (string * pyval)).

Definition pydict : Type := list (string * pyval).

(** [d.get(k)] as an option *)
Fixpoint dict_get {V : Type} (d : list (string * V)) (k : string) : option V :=
  match d with
  | [] => None
  | (k', v) :: d' => if String.eqb k' k then Some v else dict_get d' k
  end.

(** [d[k] = v]: an existing key keeps its place, a new one goes last. *)
Fixpoint dict_set {V : Type} (d : list (string * V)) (k : string) (v : V)
  : list (string * V) :=
  match d with
  | [] => [(k, v)]
  | (k', v') :: d' =>
      if String.eqb k' k then (k', v) :: d' else (k', v') :: dict_set d' k v
  end.

(** [{**d, **e}] *)
Definition dict_merge (d e : pydict) : pydict :=
  fold_left (fun acc kv => dict_set acc (fst kv) (snd kv)) e d.

(** [k in d] *)
Definition dict_mem (d : pydict) (k : string) : bool :=
  match dict_get d k with Some _ => true | None => false end.

(** [d.get(k, default)] *)
Definition dict_get_default {V : Type} (d : list (string * V)) (k : string)
  (default : V) : V :=
  match dict_get d k with Some v => v | None => default end.

(** [bool(v)] *)
Definition truthy (v : pyval) : bool :=
  match v with
  | PNone => false
  | PBool b => b
  | PInt n => negb (n =? 0)
  | PFloat q => negb (Qeq_bool q 0)
  | PStr s => negb (String.eqb s "")
  | PList items => match items with [] => false | _ :: _ => true end
  | PDict entries => match entries with [] => false | _ :: _ => true end
  end.

(** [type(v).__name__] *)
Definition type_name (v : pyval) : string :=
  match v with
  | PNone => "NoneType"
  | PBool _ => "bool"
  | PInt _ => "int"
  | PFloat _ => "float"
  | PStr _ => "str"
  | PList _ => "list"
  | PDict _ => "dict"
  end.

(** [v == s] for a string literal [s] *)
Definition eq_str (v : pyval) (s : string) : bool :=
  match v with
  | PStr t => String.eqb t s
  | _ => false
  end.

(** [v == n] for an [int] [n]: numbers compare by value, [True == 1]. *)
Definition eq_int (v : pyval) (n : Z) : bool :=
  match v with
  | PBool b => (if b then 1 else 0) =? n
  | PInt m => m =? n
  | PFloat q => Qeq_bool q (inject_Z n)
  | _ => false
  end.

(** ** Exceptions

    Every class below derives from [Exception]; [LibraryError] stands for
    the errors raised inside httpx and json (transport failures, decoding
    errors) with their class name and message. *)

Inductive exn : Type :=
| ValueError (msg : string)
| TypeError (msg : string)
| AttributeError (msg : string)
| KeyError (key : string)
| LibraryError (cls msg : string).

Inductive outcome (A : Type) : Type :=
| Ok (a : A)
| Raise (e : exn).
Arguments Ok {A} a.
Arguments Raise {A} e.

Definition no_attribute (v : pyval) (attr : string) : exn :=
  AttributeError
    ("'" ++ type_name v ++ "' object has no attribute '" ++ attr ++ "'").

(** [v.get(k, default)]: only a [dict] has the method. *)
Definition py_get (v : pyval) (k : string) (default : pyval) : outcome pyval :=
  match v with
  | PDict d => Ok (dict_get_default d k default)
  | _ => Raise (no_attribute v "get")
  end.

(** [v[k]] for a string key *)
Definition py_getitem (v : pyval) (k : string) : outcome pyval :=
  match v with
  | PDict d =>
      match dict_get d k with
      | Some x => Ok x
      | None => Raise (KeyError k)
      end
  | PStr _ => Raise (TypeError "string indices must be integers, not 'str'")
  | PList _ =>
      Raise (TypeError "list indices must be integers or slices, not str")
  | _ => Raise (TypeError ("'" ++ type_name v ++ "' object is not subscriptable"))
  end.

(** [status not in expected] for an [int] status *)
Definition not_in (status : Z) (expected : pyval) : outcome bool :=
  match expected with
  | PList items => Ok (negb (existsb (fun v => eq_int v status) items))
  | PDict _ => Ok true
  | PStr _ =>
      Raise (TypeError "'in <string>' requires string as left operand, not int")
  | _ =>
      Raise (TypeError
               ("argument of type '" ++ type_name expected ++ "' is not iterable"))
  end.

(** ** The HTTP client library, at its boundary *)

Module httpx.

(** [httpx.BasicAuth(username, password)], or the mapping handed to the
    [auth] argument. *)
Inductive Auth : Type :=
| BasicAuth (username password : pyval)
| AuthMapping (entries : list (pyval * pyval)).

(** [httpx.BasicAuth(username, password)].  The constructor builds the
    header at once: it encodes a [str] and joins the two values with
    [b":".join], which raises [TypeError] for a value that is not a string,
    naming its place and type. *)
Definition basic_auth (username password : pyval) : outcome Auth :=
  match username, password with
  | PStr _, PStr _ => Ok (BasicAuth username password)
  | PStr _, _ =>
      Raise (TypeError ("sequence item 1: expected a bytes-like object, "
                        ++ type_name password ++ " found"))
  | _, _ =>
      Raise (TypeError ("sequence item 0: expected a bytes-like object, "
                        ++ type_name username ++ " found"))
  end.

(** What [AsyncClient(...)] was built with, and whether [aclose] ran. *)
Record AsyncClient : Type := mkAsyncClient {
  timeout : pyval;
  follow_redirects : pyval;
  verify : pyval;
  default_headers : pydict;
  is_closed : bool
}.

(** The keyword arguments of one [client.request(...)] call. *)
Record Request : Type := mkRequest {
  req_method : string;
  req_url : pyval;
  req_headers : option pyval;
  req_params : option pyval;
  req_json : option pyval;
  req_data : option pyval;
  req_auth : option Auth;
  req_timeout : option pyval
}.

(** A received response.  [headers] has the keys as the library reports
    them, in lower case. *)
Record Response : Type := mkResponse {
  status_code : Z;
  headers : list (string * string);
  url : string;
  content : bytes
}.

(** [client.get(url)] *)
Definition get_request (u : pyval) : Request :=
  mkRequest "GET" u None None None None None None.

(** [response.headers.get(name, default)] *)
Fixpoint headers_get (hs : list (string * string)) (name default : string)
  : string :=
  match hs with
  | [] => default
  | (k, v) :: hs' =>
      if String.eqb k name then v else headers_get hs' name default
  end.

(** [dict(response.headers)] *)
Definition headers_dict (hs : list (string * string)) : pydict :=
  map (fun kv => (fst kv, PStr (snd kv))) hs.

End httpx.

(** ** What the plugin takes from its environment

    The network, the clock and the library routines that are not written
    out in this file.  [transport c n r] is the outcome of the [n]-th call
    made through the client [c] with the arguments [r]; [clock n] is the
    [n]-th reading of the wall clock, in seconds. *)

Record Runtime : Type := mkRuntime {
  transport : httpx.AsyncClient -> nat -> httpx.Request -> outcome httpx.Response;
  response_json : httpx.Response -> outcome pyval;
  response_text : httpx.Response -> string;
  clock : nat -> Q;
  isoformat : Q -> string;
  format_2f : Q -> string;
  float_repr : Q -> string;
  hashlib_other : string -> outcome digestmod
}.

Definition dquote : ascii := "034"%char.
Definition squote : ascii := "039"%char.
Definition backslash : ascii := "092"%char.

Fixpoint has_char (c : ascii) (s : string) : bool :=
  match s with
  | EmptyString => false
  | String c' s' => Ascii.eqb c' c || has_char c s'
  end.

Fixpoint concat_map (f : ascii -> string) (s : string) : string :=
  match s with
  | EmptyString => ""
  | String c s' => f c ++ concat_map f s'
  end.

Definition hex2 (n : Z) : string :=
  String (hex_digit (n / 16)) (String (hex_digit (n mod 16)) "").

Definition hex4 (n : Z) : string :=
  hex2 (n / 256) ++ hex2 (n mod 256).

Definition repr_char (quote c : ascii) : string :=
  let n := ascii_to_Z c in
  if Ascii.eqb c quote || Ascii.eqb c backslash then String backslash (String c "")
  else if n =? 9 then "\t"
  else if n =? 10 then "\n"
  else if n =? 13 then "\r"
  else if (n <? 32) || (n =? 127) then "\x" ++ hex2 n
  else String c "".

(** [repr(s)] for a [str]: single quotes unless the text has one and no
    double quote.  The bytes of non-ASCII characters are kept, which is what
    Python does for the printable ones; it escapes the others (U+00A0 as
    [\xa0]), by a table that is not written out here, so this is [repr] on
    text whose non-ASCII characters are printable, ASCII text included. *)
Definition repr_str (s : string) : string :=
  let quote := if has_char squote s && negb (has_char dquote s)
               then dquote else squote in
  String quote (concat_map (repr_char quote) s) ++ String quote "".

(** The code points of a UTF-8 string, for [json.dumps]. *)
Fixpoint code_points (fuel : nat) (bs : list Z) : list Z :=
  match fuel with
  | O => []
  | S fuel' =>
      match bs with
      | [] => []
      | a :: rest =>
          if a <? 128 then a :: code_points fuel' rest
          else match rest with
               | b :: rest1 =>
                   if a <? 224 then
                     ((a mod 32) * 64 + b mod 64) :: code_points fuel' rest1
                   else match rest1 with
                        | c :: rest2 =>
                            if a <? 240 then
                              (((a mod 16) * 64 + b mod 64) * 64 + c mod 64)
                                :: code_points fuel' rest2
                            else match rest2 with
                                 | d :: rest3 =>
                                     ((((a mod 8) * 64 + b mod 64) * 64
                                       + c mod 64) * 64 + d mod 64)
                                       :: code_points fuel' rest3
                                 | [] => [a; b; c]
                                 end
                        | [] => [a; b]
                        end
               | [] => [a]
               end
      end
  end.

Definition json_escape_point (n : Z) : string :=
  if n =? 34 then String backslash (String dquote "")
  else if n =? 92 then String backslash (String backslash "")
  else if n =? 10 then "\n"
  else if n =? 13 then "\r"
  else if n =? 9 then "\t"
  else if n =? 8 then "\b"
  else if n =? 12 then "\f"
  else if (32 <=? n) && (n <=? 126) then String (ascii_of_Z n) ""
  else if n <? 65536 then "\u" ++ hex4 n
  else let m := n - 65536 in
       "\u" ++ hex4 (55296 + m / 1024) ++ "\u" ++ hex4 (56320 + m mod 1024).

(** A JSON string literal with [ensure_ascii=True]. *)
Definition json_string (s : string) : string :=
  let bs := map byte_to_Z (encode_utf8 s) in
  String dquote
    (String.concat "" (map json_escape_point (code_points (List.length bs) bs)))
  ++ String dquote "".





(** ** The plugin object and the world around it

    The first five fields are the attributes of [ApiIntegrationPlugin];
    [stderr] collects what [_log] prints, [sent] the calls handed to the HTTP
    client (oldest first) and [ticks] counts the clock readings taken. *)

Record plugin : Type := mkPlugin {
  logs : list string;
  start_time : Q;
  config : pydict;
  working_directory : pyval;
  client : option httpx.AsyncClient;
  stderr : list string;
  sent : list httpx.Request;
  ticks : nat
}.

Definition set_logs (self : plugin) (x : list string) : plugin :=
  mkPlugin x (start_time self) (config self) (working_directory self)
    (client self) (stderr self) (sent self) (ticks self).
Definition set_start_time (self : plugin) (x : Q) : plugin :=
  mkPlugin (logs self) x (config self) (working_directory self)
    (client self) (stderr self) (sent self) (ticks self).
Definition set_config (self : plugin) (x : pydict) : plugin :=
  mkPlugin (logs self) (start_time self) x (working_directory self)
    (client self) (stderr self) (sent self) (ticks self).
Definition set_working_directory (self : plugin) (x : pyval) : plugin :=
  mkPlugin (logs self) (start_time self) (config self) x
    (client self) (stderr self) (sent self) (ticks self).
Definition set_client (self : plugin) (x : option httpx.AsyncClient) : plugin :=
  mkPlugin (logs self) (start_time self) (config self) (working_directory self)
    x (stderr self) (sent self) (ticks self).
Definition set_stderr (self : plugin) (x : list string) : plugin :=
  mkPlugin (logs self) (start_time self) (config self) (working_directory self)
    (client self) x (sent self) (ticks self).
Definition set_sent (self : plugin) (x : list httpx.Request) : plugin :=
  mkPlugin (logs self) (start_time self) (config self) (working_directory self)
    (client self) (stderr self) x (ticks self).
Definition set_ticks (self : plugin) (x : nat) : plugin :=
  mkPlugin (logs self) (start_time self) (config self) (working_directory self)
    (client self) (stderr self) (sent self) x.

(** ** A state and exception monad for the methods *)

Definition M (A : Type) : Type := plugin -> outcome A * plugin.

Definition ret {A : Type} (a : A) : M A := fun self => (Ok a, self).

Definition raise {A : Type} (e : exn) : M A := fun self => (Raise e, self).

Definition lift {A : Type} (o : outcome A) : M A := fun self => (o, self).

Definition bind {A B : Type} (m : M A) (f : A -> M B) : M B :=
  fun self =>
    match m self with
    | (Ok a, self') => f a self'
    | (Raise e, self') => (Raise e, self')
    end.

(** [try: body  except Exception as e: handler(e)] *)
Definition try_except {A : Type} (body : M A) (handler : exn -> M A) : M A :=
  fun self =>
    match body self with
    | (Ok a, self') => (Ok a, self')
    | (Raise e, self') => handler e self'
    end.

(** [try: body  finally: final] *)
Definition try_finally {A : Type} (body : M A) (final : M unit) : M A :=
  fun self =>
    match body self with
    | (r, self') =>
        match final self' with
        | (Ok _, self'') => (r, self'')
        | (Raise e, self'') => (Raise e, self'')
        end
    end.

Definition modify (f : plugin -> plugin) : M unit :=
  fun self => (Ok tt, f self).

Definition read {A : Type} (f : plugin -> A) : M A :=
  fun self => (Ok (f self), self).

(** [asyncio.gather] over the items: the event loop starts them in the order
    of the list, which is the order they are run in here, and the results
    keep that order whatever the order of completion; an exception that
    gets out of an item gets out of the whole.  How the log lines and clock
    readings of concurrent items interleave is not modelled. *)
Fixpoint gather {A B : Type} (f : A -> M B) (items : list A) : M (list B) :=
  match items with
  | [] => ret []
  | x :: rest =>
      bind (f x) (fun r => bind (gather f rest) (fun rs => ret (r :: rs)))
  end.

Notation "x <- m ;; k" := (bind m (fun x => k))
  (at level 61, m at next level, right associativity).
Notation "m ;;; k" := (bind m (fun _ => k))
  (at level 61, right associativity).

(** Q arithmetic of the timings: [(t1 - t0) * 1000]. *)
Definition elapsed_ms (t0 t1 : Q) : Q := ((t1 - t0) * 1000)%Q.

(** [x < y] on timings *)
Definition Qlt_bool (x y : Q) : bool := negb (Qle_bool y x).

(** Binding on plain outcomes, for the methods that touch no state. *)
Definition obind {A B : Type} (o : outcome A) (f : A -> outcome B) : outcome B :=
  match o with
  | Ok a => f a
  | Raise e => Raise e
  end.

Notation "'let?' x ':=' o 'in' k" := (obind o (fun x => k))
  (at level 10, x name, k at level 200).

(** [v.upper()] *)
Definition py_upper (v : pyval) : outcome string :=
  match v with
  | PStr s => Ok (str_upper s)
  | _ => Raise (no_attribute v "upper")
  end.

(** [v.startswith(p)] *)
Definition py_startswith (v : pyval) (p : string) : outcome bool :=
  match v with
  | PStr s => Ok (startswith s p)
  | _ => Raise (no_attribute v "startswith")
  end.

(** [v.encode('utf-8')], on the strings that have an encoding
    ([valid_utf8]) *)
Definition py_encode (v : pyval) : outcome bytes :=
  match v with
  | PStr s => Ok (encode_utf8 s)
  | _ => Raise (no_attribute v "encode")
  end.

(** [len(v)] *)
Definition py_len (v : pyval) : outcome Z :=
  match v with
  | PStr s => Ok (Z.of_nat (String.length s))
  | PList items => Ok (Z.of_nat (List.length items))
  | PDict entries => Ok (Z.of_nat (List.length entries))
  | _ => Raise (TypeError ("object of type '" ++ type_name v ++ "' has no len()"))
  end.

Fixpoint chars_of (s : string) : list pyval :=
  match s with
  | EmptyString => []
  | String c s' => PStr (String c "") :: chars_of s'
  end.

(** [[x for x in v]] *)
Definition py_iter (v : pyval) : outcome (list pyval) :=
  match v with
  | PStr s => Ok (chars_of s)
  | PList items => Ok items
  | PDict entries => Ok (map (fun kv => PStr (fst kv)) entries)
  | _ => Raise (TypeError ("'" ++ type_name v ++ "' object is not iterable"))
  end.

(** [hmac.compare_digest(a, b)] on the two signatures: both must be [str]
    and ASCII; the comparison itself is equality. *)
Definition compare_digest (a b : pyval) : outcome bool :=
  match a, b with
  | PStr x, PStr y =>
      if is_ascii x && is_ascii y then Ok (String.eqb x y)
      else Raise (TypeError
                    "comparing strings with non-ASCII characters is not supported")
  | _, _ =>
      Raise (TypeError
               ("unsupported operand types(s) or combination of types: '"
                ++ type_name a ++ "' and '" ++ type_name b ++ "'"))
  end.

(** [{header: key}]: the key of a dict display must be hashable. *)
Definition hashable (v : pyval) : bool :=
  match v with
  | PList _ | PDict _ => false
  | _ => true
  end.

(** ** The plugin's methods *)

Section Plugin.

Variable W : Runtime.

(** [repr(v)] *)
Fixpoint py_repr (v : pyval) : string :=
  match v with
  | PNone => "None"
  | PBool b => if b then "True" else "False"
  | PInt n => str_of_int n
  | PFloat q => float_repr W q
  | PStr s => repr_str s
  | PList items => "[" ++ join ", " (map py_repr items) ++ "]"
  | PDict entries =>
      "{" ++ join ", "
               (map (fun kv => let '(k, x) := kv in
                               repr_str k ++ ": " ++ py_repr x) entries)
          ++ "}"
  end.

(** [str(v)], which is what an f-string field [{v}] prints *)
Definition py_str (v : pyval) : string :=
  match v with
  | PStr s => s
  | _ => py_repr v
  end.

(** [json.dumps(v, separators=(',', ':'))] *)
Fixpoint json_dumps (v : pyval) : string :=
  match v with
  | PNone => "null"
  | PBool b => if b then "true" else "false"
  | PInt n => str_of_int n
  | PFloat q => float_repr W q
  | PStr s => json_string s
  | PList items => "[" ++ join "," (map json_dumps items) ++ "]"
  | PDict entries =>
      "{" ++ join ","
               (map (fun kv => let '(k, x) := kv in
                               json_string k ++ ":" ++ json_dumps x) entries)
          ++ "}"
  end.

(** [str(e)] for a caught exception *)
Definition str_exn (e : exn) : string :=
  match e with
  | ValueError msg => msg
  | TypeError msg => msg
  | AttributeError msg => msg
  | KeyError key => repr_str key
  | LibraryError _ msg => msg
  end.

(** [getattr(hashlib, algorithm)], as [hmac.new] can use it *)
Definition hashlib_getattr (algorithm : pyval) : outcome digestmod :=
  match algorithm with
  | PStr name =>
      if String.eqb name "sha256" then Ok sha256 else hashlib_other W name
  | _ =>
      Raise (TypeError ("attribute name must be string, not '"
                        ++ type_name algorithm ++ "'"))
  end.

(** [time.time()] and [datetime.now(timezone.utc)] *)
Definition now : M Q :=
  fun self => (Ok (clock W (ticks self)), set_ticks self (S (ticks self))).

(** [await self.client.request] with its keyword arguments, and
    [await self.client.get] *)
Definition client_call (attr : string) (r : httpx.Request) : M httpx.Response :=
  fun self =>
    match client self with
    | None => (Raise (no_attribute PNone attr), self)
    | Some c =>
        (transport W c (List.length (sent self)) r,
         set_sent self (sent self ++ [r])%list)
    end.

Definition client_get (u : pyval) : M httpx.Response :=
  client_call "get" (httpx.get_request u).

Definition _log (message : string) : M unit :=
  fun self =>
    let self := set_logs self (logs self ++ [message])%list in
    let level := dict_get_default (config self) "logLevel" PNone in
    if eq_str level "debug" || eq_str level "info"
    then (Ok tt, set_stderr self
                   (stderr self
                    ++ [("[ApiIntegration] " ++ message)%string])%list)
    else (Ok tt, self).

Definition default_config : pydict :=
  [ ("defaultTimeout", PInt 30);
    ("maxRetries", PInt 3);
    ("retryDelay", PInt 1);
    ("followRedirects", PBool true);
    ("validateSsl", PBool true);
    ("userAgent", PStr "DevFlow-ApiIntegration/1.0");
    ("logLevel", PStr "info") ].

Definition _parse_context (context : pydict) : M unit :=
  let configuration := dict_get_default context "configuration" (PDict []) in
  let overrides :=
    if truthy configuration then configuration
    else dict_get_default context "executionParameters" (PDict []) in
  match overrides with
  | PDict d =>
      modify (fun self => set_config self (dict_merge default_config d)) ;;;
      modify (fun self =>
                set_working_directory self
                  (dict_get_default context "workingDirectory" (PStr "/tmp"))) ;;;
      cfg <- read config ;;
      timeout <- lift (py_getitem (PDict cfg) "defaultTimeout") ;;
      _log ("Configuration loaded - Timeout: " ++ py_str timeout ++ "s") ;;;
      retries <- lift (py_getitem (PDict cfg) "maxRetries") ;;
      _log ("Max retries: " ++ py_str retries)
  | _ =>
      raise (TypeError ("'" ++ type_name overrides ++ "' object is not a mapping"))
  end.

Definition _init_client : M unit :=
  cfg <- read config ;;
  timeout <- lift (py_getitem (PDict cfg) "defaultTimeout") ;;
  follow <- lift (py_getitem (PDict cfg) "followRedirects") ;;
  verify <- lift (py_getitem (PDict cfg) "validateSsl") ;;
  agent <- lift (py_getitem (PDict cfg) "userAgent") ;;
  modify (fun self =>
            set_client self
              (Some (httpx.mkAsyncClient timeout follow verify
                       [("User-Agent", agent)] false))) ;;;
  _log "HTTP client initialized".

Definition _get_operation (context : pydict) : outcome pyval :=
  let input_data := dict_get_default context "inputData" (PDict context) in
  let? operation :=
    if truthy input_data then py_get input_data "operation" PNone
    else Ok PNone in
  if negb (truthy input_data) || negb (truthy operation) then
    let? u := py_get input_data "url" (PStr "https://httpbin.org/get") in
    Ok (PDict [ ("type", PStr "request");
                ("method", PStr "GET");
                ("url", u) ])
  else
    let? type := py_get input_data "operation" (PStr "request") in
    let? method := py_get input_data "method" (PStr "GET") in
    let? u := py_get input_data "url" PNone in
    let? headers := py_get input_data "headers" (PDict []) in
    let? params := py_get input_data "params" (PDict []) in
    let? data := py_get input_data "data" PNone in
    let? json := py_get input_data "json" PNone in
    let? auth := py_get input_data "auth" PNone in
    let? timeout := py_get input_data "timeout" PNone in
    let? retries := py_get input_data "retries" PNone in
    let? validate := py_get input_data "validateResponse" (PBool true) in
    let? expected := py_get input_data "expectedStatus" (PList [PInt 200]) in
    let? endpoints := py_get input_data "endpoints" (PList []) in
    let? webhook := py_get input_data "webhook" PNone in
    Ok (PDict [ ("type", type);
                ("method", method);
                ("url", u);
                ("headers", headers);
                ("params", params);
                ("data", data);
                ("json", json);
                ("auth", auth);
                ("timeout", timeout);
                ("retries", retries);
                ("validateResponse", validate);
                ("expectedStatus", expected);
                ("endpoints", endpoints);
                ("webhook", webhook) ]).

Definition _prepare_auth (auth_config : pyval) : outcome httpx.Auth :=
  let? auth_type := py_get auth_config "type" (PStr "basic") in
  let unsupported : outcome httpx.Auth :=
    Raise (ValueError ("Unsupported auth type: " ++ py_str auth_type)) in
  if eq_str auth_type "basic" then
    let? username := py_get auth_config "username" PNone in
    let? password := py_get auth_config "password" PNone in
    if truthy username && truthy password
    then httpx.basic_auth username password
    else unsupported
  else if eq_str auth_type "bearer" then
    let? token := py_get auth_config "token" PNone in
    if truthy token
    then Ok (httpx.AuthMapping
               [(PStr "Authorization", PStr ("Bearer " ++ py_str token))])
    else unsupported
  else if eq_str auth_type "api_key" then
    let? key := py_get auth_config "key" PNone in
    let? header := py_get auth_config "header" (PStr "X-API-Key") in
    if truthy key then
      if hashable header then Ok (httpx.AuthMapping [(header, key)])
      else Raise (TypeError ("unhashable type: '" ++ type_name header ++ "'"))
    else unsupported
  else unsupported.

Definition _validate_response (response : httpx.Response)
  (expected_status : pyval) : outcome unit :=
  let? unexpected := not_in (httpx.status_code response) expected_status in
  if unexpected then
    Raise (ValueError ("Unexpected status code: "
                       ++ str_of_int (httpx.status_code response)
                       ++ ", expected one of " ++ py_str expected_status))
  else Ok tt.

Definition _parse_response (response : httpx.Response) : pydict :=
  let result : pydict :=
    [ ("status", PInt (httpx.status_code response));
      ("headers", PDict (httpx.headers_dict (httpx.headers response)));
      ("url", PStr (httpx.url response));
      ("success", PBool (httpx.status_code response <? 400)) ] in
  let content_type :=
    str_lower (httpx.headers_get (httpx.headers response) "content-type" "") in
  let body : outcome pydict :=
    if str_contains "application/json" content_type then
      let? data := response_json W response in
      Ok (dict_set (dict_set result "data" data) "contentType" (PStr "json"))
    else if str_contains "text/" content_type
            || str_contains "application/xml" content_type then
      Ok (dict_set (dict_set result "data" (PStr (response_text W response)))
            "contentType" (PStr "text"))
    else
      Ok (dict_set
            (dict_set
               (dict_set result "data"
                  (PStr (decode_utf8 (b64encode (httpx.content response)))))
               "contentType" (PStr "binary"))
            "size" (PInt (Z.of_nat (List.length (httpx.content response))))) in
  match body with
  | Ok parsed => parsed
  | Raise e =>
      dict_set
        (dict_set result "data"
           (PStr ("Error parsing response: " ++ str_exn e)))
        "contentType" (PStr "error")
  end.

(** Lines 165-181 of [_make_request]: the keyword arguments of the call. *)
Definition request_kwargs (method : string) (url operation : pyval)
  : outcome httpx.Request :=
  let? headers := py_get operation "headers" (PDict []) in
  let? params := py_get operation "params" (PDict []) in
  let? json := py_get operation "json" PNone in
  let? body :=
    if truthy json then
      let? j := py_getitem operation "json" in Ok (Some j, None)
    else
      let? data := py_get operation "data" PNone in
      if truthy data then
        let? d := py_getitem operation "data" in Ok (None, Some d)
      else Ok (None, None) in
  let? auth := py_get operation "auth" PNone in
  let? credentials :=
    if truthy auth then
      let? a := py_getitem operation "auth" in
      let? prepared := _prepare_auth a in Ok (Some prepared)
    else Ok None in
  let? timeout := py_get operation "timeout" PNone in
  let? override :=
    if truthy timeout then
      let? t := py_getitem operation "timeout" in Ok (Some t)
    else Ok None in
  Ok (httpx.mkRequest method url (Some headers) (Some params)
        (fst body) (snd body) credentials override).

Definition _make_request (operation : pyval) : M pydict :=
  m <- lift (py_getitem operation "method") ;;
  method <- lift (py_upper m) ;;
  url <- lift (py_getitem operation "url") ;;
  if negb (truthy url) then
    raise (ValueError "URL is required for API request")
  else
    _log ("Making " ++ method ++ " request to " ++ py_str url) ;;;
    kwargs <- lift (request_kwargs method url operation) ;;
    request_start <- now ;;
    response <- client_call "request" kwargs ;;
    request_end <- now ;;
    let request_time := elapsed_ms request_start request_end in
    _log ("Request completed in " ++ format_2f W request_time
          ++ "ms - Status: " ++ str_of_int (httpx.status_code response)) ;;;
    validate <- lift (py_get operation "validateResponse" (PBool true)) ;;
    (if truthy validate then
       expected <- lift (py_get operation "expectedStatus" (PList [PInt 200])) ;;
       lift (_validate_response response expected)
     else ret tt) ;;;
    let result := _parse_response response in
    let result := dict_set result "requestTime" (PFloat request_time) in
    let result := dict_set result "attempt" (PInt 1) in
    ret result.

(** The inner function of [_make_batch_requests]. *)
Definition make_single_request (endpoint_config : pyval) : M pydict :=
  try_except (_make_request endpoint_config)
    (fun e =>
       u <- lift (py_get endpoint_config "url" PNone) ;;
       ret [ ("url", u);
             ("error", PStr (str_exn e));
             ("success", PBool false) ]).

(** Line 218: [sum(1 for r in results if r.get('success', True))]. *)
Definition successful_count (results : list pydict) : Z :=
  Z.of_nat
    (List.length
       (filter (fun r => truthy (dict_get_default r "success" (PBool true)))
          results)).

(** Line 219: [len(results) - successful]. *)
Definition failed_count (results : list pydict) : Z :=
  Z.of_nat (List.length results) - successful_count results.

Definition _make_batch_requests (endpoints : pyval) : M pydict :=
  n <- lift (py_len endpoints) ;;
  _log ("Making batch requests to " ++ str_of_int n ++ " endpoints") ;;;
  batch_start <- now ;;
  items <- lift (py_iter endpoints) ;;
  results <- gather make_single_request items ;;
  batch_end <- now ;;
  let batch_time := elapsed_ms batch_start batch_end in
  let successful := successful_count results in
  let failed := failed_count results in
  _log ("Batch completed in " ++ format_2f W batch_time ++ "ms - "
        ++ str_of_int successful ++ " successful, "
        ++ str_of_int failed ++ " failed") ;;;
  total <- lift (py_len endpoints) ;;
  ret [ ("totalRequests", PInt total);
        ("successful", PInt successful);
        ("failed", PInt failed);
        ("batchTime", PFloat batch_time);
        ("results", PList (map PDict results)) ].

Definition test_entry (name status details : string) : pyval :=
  PDict [ ("name", PStr name);
          ("status", PStr status);
          ("details", PStr details) ].

(** [test_results] is kept as its two mutable entries, [tests] and
    [overall]. *)
Definition _test_endpoint (operation : pyval) : M pydict :=
  url <- lift (py_getitem operation "url") ;;
  _log ("Testing endpoint: " ++ py_str url) ;;;
  let tests0 : list pyval := [] in
  let overall0 := "passed" in
  (* Test 1: Basic connectivity *)
  r1 <- try_except
          (response <- client_get url ;;
           ret ((tests0 ++ [test_entry "Connectivity" "passed"
                             ("Endpoint reachable - Status: "
                              ++ str_of_int (httpx.status_code response))%string])%list,
                overall0))
          (fun e =>
             ret ((tests0 ++ [test_entry "Connectivity" "failed"
                               ("Endpoint unreachable: " ++ str_exn e)%string])%list,
                  "failed")) ;;
  let '(tests1, overall1) := r1 in
  (* Test 2: Response time *)
  r2 <- try_except
          (started <- now ;;
           response <- client_get url ;;
           ended <- now ;;
           let response_time := elapsed_ms started ended in
           if Qlt_bool response_time 1000 then
             ret ((tests1 ++ [test_entry "Response Time" "passed"
                               ("Response time: " ++ format_2f W response_time
                                ++ "ms")%string])%list,
                  overall1)
           else
             ret ((tests1 ++ [test_entry "Response Time" "warning"
                               ("Slow response: " ++ format_2f W response_time
                                ++ "ms")%string])%list,
                  overall1))
          (fun e =>
             ret ((tests1 ++ [test_entry "Response Time" "failed"
                               ("Timeout or error: " ++ str_exn e)%string])%list,
                  "failed")) ;;
  let '(tests2, overall2) := r2 in
  (* Test 3: Response format (if JSON expected) *)
  r3 <- try_except
          (response <- client_get url ;;
           let content_type :=
             httpx.headers_get (httpx.headers response) "content-type" "" in
           if str_contains "application/json" content_type then
             match response_json W response with
             | Ok _ =>
                 ret ((tests2 ++ [test_entry "JSON Format" "passed"
                                   "Valid JSON response"])%list,
                      overall2)
             | Raise _ =>
                 ret ((tests2 ++ [test_entry "JSON Format" "failed"
                                   "Invalid JSON in response"])%list,
                      "failed")
             end
           else
             ret ((tests2 ++ [test_entry "Content Type" "info"
                               ("Content-Type: " ++ content_type)%string])%list,
                  overall2))
          (fun e =>
             ret ((tests2 ++ [test_entry "Response Analysis" "failed"
                               ("Error analyzing response: "
                                ++ str_exn e)%string])%list,
                  overall2)) ;;
  let '(tests3, overall3) := r3 in
  _log ("Endpoint test completed - Overall: " ++ overall3) ;;;
  ret [ ("url", url);
        ("tests", PList tests3);
        ("overall", PStr overall3) ].

(** Lines 333-336 of [_validate_webhook]: the bytes that are signed. *)
Definition canonical_payload (payload : pyval) : bytes :=
  match payload with
  | PDict _ => encode_utf8 (json_dumps payload)
  | _ => encode_utf8 (py_str payload)
  end.

Definition _validate_webhook (webhook_config : pyval) : M pydict :=
  payload <- lift (py_get webhook_config "payload" PNone) ;;
  signature <- lift (py_get webhook_config "signature" PNone) ;;
  secret <- lift (py_get webhook_config "secret" PNone) ;;
  algorithm <- lift (py_get webhook_config "algorithm" (PStr "sha256")) ;;
  _log "Validating webhook signature" ;;;
  if negb (forallb truthy [payload; signature; secret]) then
    raise (ValueError
             "Payload, signature, and secret are required for webhook validation")
  else
    (* Calculate expected signature *)
    let payload_bytes := canonical_payload payload in
    key <- lift (py_encode secret) ;;
    digestmod <- lift (hashlib_getattr algorithm) ;;
    let expected_signature := hmac_hexdigest digestmod key payload_bytes in
    (* Compare signatures *)
    signature_match <-
      lift (compare_digest signature (PStr expected_signature)) ;;
    let result : pydict :=
      [ ("valid", PBool signature_match);
        ("algorithm", algorithm);
        ("providedSignature", signature);
        ("expectedSignature", PStr expected_signature);
        ("payloadSize", PInt (Z.of_nat (List.length payload_bytes))) ] in
    (if signature_match
     then _log "Webhook signature validation passed"
     else _log "Webhook signature validation failed") ;;;
    ret result.

Definition security_headers : list string :=
  [ "x-frame-options";
    "x-content-type-options";
    "x-xss-protection";
    "strict-transport-security" ].

(** Lines 430-440 of [_health_check]: the verdict over the checks. *)
Definition overall_health (checks : list (string * pydict)) : string :=
  let all_checks := map snd checks in
  let healthy_count :=
    Z.of_nat
      (List.length
         (filter (fun check =>
                    eq_str (dict_get_default check "status" PNone) "healthy")
            all_checks)) in
  let total_checks := Z.of_nat (List.length all_checks) in
  if healthy_count =? total_checks then "healthy"
  else if Qlt_bool (inject_Z total_checks / 2)%Q (inject_Z healthy_count)
  then "degraded"
  else "unhealthy".

Definition checks_value (checks : list (string * pydict)) : pyval :=
  PDict (map (fun kv => (fst kv, PDict (snd kv))) checks).

Definition _health_check (url : pyval) : M pydict :=
  _log ("Performing health check on " ++ py_str url) ;;;
  stamp <- now ;;
  let checks0 : list (string * pydict) := [] in
  (* Check 1: Basic HTTP connectivity *)
  connectivity <-
    try_except
      (started <- now ;;
       response <- client_get url ;;
       ended <- now ;;
       ret [ ("status",
              PStr (if httpx.status_code response <? 400
                    then "healthy" else "unhealthy"));
             ("statusCode", PInt (httpx.status_code response));
             ("responseTime", PFloat (elapsed_ms started ended)) ])
      (fun e =>
         ret [ ("status", PStr "unhealthy");
               ("error", PStr (str_exn e)) ]) ;;
  let checks1 := dict_set checks0 "connectivity" connectivity in
  (* Check 2: SSL/TLS (for HTTPS URLs) *)
  secure <- lift (py_startswith url "https://") ;;
  checks2 <-
    (if secure then
       ssl <-
         try_except
           (response <- client_get url ;;
            ret [ ("status", PStr "healthy");
                  ("details", PStr "SSL certificate valid") ])
           (fun e =>
              ret [ ("status", PStr "unhealthy");
                    ("error", PStr (str_exn e)) ]) ;;
       ret (dict_set checks1 "ssl" ssl)
     else ret checks1) ;;
  (* Check 3: Response headers *)
  headers_check <-
    try_except
      (response <- client_get url ;;
       let headers := httpx.headers_dict (httpx.headers response) in
       let present_security_headers :=
         filter (fun h => dict_mem headers h) security_headers in
       ret [ ("status",
              PStr (if (2 <? Z.of_nat (List.length present_security_headers))
                    then "healthy" else "warning"));
             ("present", PList (map PStr present_security_headers));
             ("total", PInt (Z.of_nat (List.length security_headers))) ])
      (fun e =>
         ret [ ("status", PStr "unhealthy");
               ("error", PStr (str_exn e)) ]) ;;
  let checks3 := dict_set checks2 "security_headers" headers_check in
  (* Determine overall health *)
  let overall := overall_health checks3 in
  _log ("Health check completed - Overall: " ++ overall) ;;;
  ret [ ("url", url);
        ("timestamp", PStr (isoformat W stamp));
        ("checks", checks_value checks3);
        ("overall", PStr overall) ].

Definition _perform_operation (operation : pyval) : M pyval :=
  op_type <- lift (py_getitem operation "type") ;;
  if eq_str op_type "request" then
    r <- _make_request operation ;; ret (PDict r)
  else if eq_str op_type "batch_requests" then
    endpoints <- lift (py_getitem operation "endpoints") ;;
    r <- _make_batch_requests endpoints ;; ret (PDict r)
  else if eq_str op_type "test_endpoint" then
    r <- _test_endpoint operation ;; ret (PDict r)
  else if eq_str op_type "webhook_validate" then
    webhook <- lift (py_getitem operation "webhook") ;;
    r <- _validate_webhook webhook ;; ret (PDict r)
  else if eq_str op_type "health_check" then
    u <- lift (py_getitem operation "url") ;;
    r <- _health_check u ;; ret (PDict r)
  else raise (ValueError ("Unsupported operation: " ++ py_str op_type)).

(** [await self.client.aclose()] when there is a client *)
Definition close_client : M unit :=
  modify (fun self =>
            match client self with
            | Some c =>
                set_client self
                  (Some (httpx.mkAsyncClient (httpx.timeout c)
                           (httpx.follow_redirects c) (httpx.verify c)
                           (httpx.default_headers c) true))
            | None => self
            end).

(** Lines 34-60 of [execute_async]: the body of its [try]. *)
Definition try_body (context : pydict) : M pydict :=
  _log "ApiIntegration plugin execution started" ;;;
  _parse_context context ;;;
  _init_client ;;;
  operation <- lift (_get_operation context) ;;
  type <- lift (py_getitem operation "type") ;;
  _log ("Performing " ++ py_str type ++ " operation") ;;;
  result <- _perform_operation operation ;;
  finished <- now ;;
  start <- read start_time ;;
  let execution_time := elapsed_ms start finished in
  _log ("Operation completed in " ++ format_2f W execution_time ++ "ms") ;;;
  type <- lift (py_getitem operation "type") ;;
  stamp <- now ;;
  lines <- read logs ;;
  ret [ ("success", PBool true);
        ("message",
         PStr ("API operation '" ++ py_str type ++ "' completed successfully"));
        ("data", result);
        ("executionTimeMs", PFloat execution_time);
        ("timestamp", PStr (isoformat W stamp));
        ("logs", PList (map PStr lines)) ].

(** Lines 62-73: the handler of [except Exception as error]. *)
Definition except_body (error : exn) : M pydict :=
  finished <- now ;;
  start <- read start_time ;;
  let execution_time := elapsed_ms start finished in
  let error_message := str_exn error in
  _log ("Error: " ++ error_message) ;;;
  stamp <- now ;;
  lines <- read logs ;;
  ret [ ("success", PBool false);
        ("message", PStr ("API operation failed: " ++ error_message));
        ("executionTimeMs", PFloat execution_time);
        ("timestamp", PStr (isoformat W stamp));
        ("logs", PList (map PStr lines)) ].

Definition execute_async (context : pydict) : M pydict :=
  started <- now ;;
  modify (fun self => set_start_time self started) ;;;
  modify (fun self => set_logs self []) ;;;
  try_finally (try_except (try_body context) except_body) close_client.

End Plugin.

(** ** A stub runtime and sample inputs

    The stub answers every call from a script, reads the clock one second
    later each time, knows no hash but SHA-256 and parses two JSON bodies. *)

Definition stub_json (response : httpx.Response) : outcome pyval :=
  let body := decode_utf8 (httpx.content response) in
  if String.eqb body "null" then Ok PNone
  else if String.eqb body "{}" then Ok (PDict [])
  else Raise (LibraryError "JSONDecodeError"
                "Expecting value: line 1 column 1 (char 0)").

(** A rational printed with two decimals, rounded half up. *)
Definition stub_float (q : Q) : string :=
  let n := Qfloor (q * 100 + (1 # 2))%Q in
  let cents := Z.abs n mod 100 in
  (if n <? 0 then "-" else "") ++ str_of_int (Z.abs n / 100) ++ "."
  ++ (if cents <? 10 then "0" else "") ++ str_of_int cents.

Definition stub_runtime
  (script : nat -> httpx.Request -> outcome httpx.Response) : Runtime :=
  mkRuntime
    (fun _ n r => script n r)
    stub_json
    (fun response => decode_utf8 (httpx.content response))
    (fun n => inject_Z (Z.of_nat n))
    (fun q => "epoch+" ++ stub_float q ++ "s")
    stub_float
    stub_float
    (fun name =>
       Raise (AttributeError
                ("module 'hashlib' has no attribute '" ++ name ++ "'"))).

Definition always (response : httpx.Response)
  : nat -> httpx.Request -> outcome httpx.Response :=
  fun _ _ => Ok response.

Definition unreachable : nat -> httpx.Request -> outcome httpx.Response :=
  fun _ _ => Raise (LibraryError "ConnectError" "All connection attempts failed").

(** The object as [__init__] leaves it, with the clock read once. *)
Definition fresh_plugin (W : Runtime) : plugin :=
  mkPlugin [] (clock W 0) [] (PStr "/tmp") None [] [] 1.

(** The object inside an invocation: configuration loaded, client built. *)
Definition ready_plugin (W : Runtime) : plugin :=
  mkPlugin [] (clock W 0) default_config (PStr "/tmp")
    (Some (httpx.mkAsyncClient (PInt 30) (PBool true) (PBool true)
             [("User-Agent", PStr "DevFlow-ApiIntegration/1.0")] false))
    [] [] 1.

Definition not_found_json : httpx.Response :=
  httpx.mkResponse 404 [("content-type", "application/json")]
    "https://api.example.com/items/7" (encode_utf8 "{}").

Definition not_found_html : httpx.Response :=
  httpx.mkResponse 404 [("content-type", "text/html"); ("x-request-id", "41")]
    "https://api.example.com/items/7" (encode_utf8 "<h1>Not Found</h1>").

Definition ok_json : httpx.Response :=
  httpx.mkResponse 200 [("content-type", "Application/JSON; charset=utf-8")]
    "https://api.example.com/items" (encode_utf8 "{}").

Definition ok_png : httpx.Response :=
  httpx.mkResponse 200 [("content-type", "image/png")]
    "https://api.example.com/logo.png" [x89; x50; x4e; x47; x0d; x0a; x1a; x0a].

Definition server_error : httpx.Response :=
  httpx.mkResponse 500 [("content-type", "text/plain")]
    "https://api.example.com/items" (encode_utf8 "boom").

Definition get_items : pydict :=
  [ ("type", PStr "request");
    ("method", PStr "get");
    ("url", PStr "https://api.example.com/items/7");
    ("expectedStatus", PList [PInt 200; PInt 201]) ].

(** * Properties *)

(** ** Bytes *)

Lemma byte_to_Z_range (b : byte) : 0 <= byte_to_Z b < 256.
Proof.
  unfold byte_to_Z. pose proof (Byte.to_N_bounded b). lia.
Qed.

Lemma byte_of_to_Z (b : byte) : byte_of_Z (byte_to_Z b) = b.
Proof.
  unfold byte_of_Z. pose proof (byte_to_Z_range b) as R.
  rewrite Z.mod_small by exact R. unfold byte_to_Z.
  rewrite N2Z.id, Byte.of_to_N. reflexivity.
Qed.

Lemma byte_of_Z_eq (z : Z) (b : byte) : z = byte_to_Z b -> byte_of_Z z = b.
Proof. intros ->. apply byte_of_to_Z. Qed.

(** ** base64 *)

Lemma b64_index_char (n : Z) :
  0 <= n < 64 -> b64_index (b64_char n) = Some n.
Proof.
  intros R. rewrite <- (Z2Nat.id n) by lia.
  assert (L : (Z.to_nat n < 64)%nat) by lia.
  generalize dependent (Z.to_nat n). clear R. intros k L.
  do 64 (destruct k as [|k]; [reflexivity|]). lia.
Qed.

Lemma list_ind3 (A : Type) (P : list A -> Prop) :
  P [] -> (forall a, P [a]) -> (forall a b, P [a; b]) ->
  (forall a b c rest, P rest -> P (a :: b :: c :: rest)) ->
  forall l, P l.
Proof.
  intros H0 H1 H2 H3.
  fix IH 1. intros [|a [|b [|c rest]]];
    [apply H0 | apply H1 | apply H2 | apply H3; apply IH].
Qed.

Lemma b64decode_encode (bs : bytes) : b64decode (b64encode_str bs) = Some bs.
Proof.
  induction bs as [|a|a b|a b c rest IH] using list_ind3.
  - reflexivity.
  - pose proof (byte_to_Z_range a) as Ra.
    cbn [b64encode_str b64decode].
    rewrite !b64_index_char by (Z.to_euclidean_division_equations; lia).
    change (b64_index "=") with (@None Z). cbn.
    f_equal. f_equal. apply byte_of_Z_eq.
    Z.to_euclidean_division_equations; lia.
  - pose proof (byte_to_Z_range a) as Ra. pose proof (byte_to_Z_range b) as Rb.
    cbn [b64encode_str b64decode].
    rewrite !b64_index_char by (Z.to_euclidean_division_equations; lia).
    change (b64_index "=") with (@None Z). cbn.
    f_equal. f_equal; [|f_equal]; apply byte_of_Z_eq;
      Z.to_euclidean_division_equations; lia.
  - pose proof (byte_to_Z_range a) as Ra. pose proof (byte_to_Z_range b) as Rb.
    pose proof (byte_to_Z_range c) as Rc.
    cbn [b64encode_str b64decode].
    rewrite !b64_index_char by (Z.to_euclidean_division_equations; lia).
    rewrite IH. cbn [option_map].
    f_equal. f_equal; [|f_equal; [|f_equal]]; apply byte_of_Z_eq;
      Z.to_euclidean_division_equations; lia.
Qed.

(** ** Running the methods *)

(** The object after [_log message]. *)
Definition logged (message : string) (self : plugin) : plugin :=
  snd (_log message self).

Lemma log_run (message : string) (self : plugin) :
  _log message self = (Ok tt, logged message self).
Proof.
  unfold logged, _log.
  destruct (eq_str _ "debug" || eq_str _ "info"); reflexivity.
Qed.

Lemma logged_frame (message : string) (self : plugin) :
  sent (logged message self) = sent self /\
  client (logged message self) = client self /\
  ticks (logged message self) = ticks self /\
  config (logged message self) = config self /\
  start_time (logged message self) = start_time self /\
  logs (logged message self) = (logs self ++ [message])%list.
Proof.
  unfold logged, _log.
  destruct (eq_str _ "debug" || eq_str _ "info"); cbn; auto 10.
Qed.

Lemma logged_sent m self : sent (logged m self) = sent self.
Proof. apply logged_frame. Qed.
Lemma logged_client m self : client (logged m self) = client self.
Proof. apply logged_frame. Qed.
Section Running.

Variable W : Runtime.
Context {A B : Type}.

Lemma bind_log (message : string) (f : unit -> M B) (self : plugin) :
  bind (_log message) f self = f tt (logged message self).
Proof. unfold bind. rewrite log_run. reflexivity. Qed.

Lemma bind_now (f : Q -> M B) (self : plugin) :
  bind (now W) f self
  = f (clock W (ticks self)) (set_ticks self (S (ticks self))).
Proof. reflexivity. Qed.

Lemma bind_ok (a : A) (f : A -> M B) (self : plugin) :
  bind (lift (Ok a)) f self = f a self.
Proof. reflexivity. Qed.

Lemma bind_run (m : M A) (f : A -> M B) (self self' : plugin) (a : A) :
  m self = (Ok a, self') -> bind m f self = f a self'.
Proof. unfold bind. intros ->. reflexivity. Qed.

End Running.

(** ** C10: incomplete auth descriptors *)

Definition auth_field (d : pydict) (k : string) : pyval :=
  dict_get_default d k PNone.

(** The recognized variants with a required field missing or empty. *)
Inductive incomplete (d : pydict) : string -> Prop :=
| incomplete_basic :
    eq_str (dict_get_default d "type" (PStr "basic")) "basic" = true ->
    truthy (auth_field d "username") && truthy (auth_field d "password") = false ->
    incomplete d "basic"
| incomplete_bearer :
    dict_get d "type" = Some (PStr "bearer") ->
    truthy (auth_field d "token") = false ->
    incomplete d "bearer"
| incomplete_api_key :
    dict_get d "type" = Some (PStr "api_key") ->
    truthy (auth_field d "key") = false ->
    incomplete d "api_key".

Lemma eq_str_true (v : pyval) (s : string) : eq_str v s = true -> v = PStr s.
Proof.
  destruct v; cbn; try discriminate.
  intros H. apply String.eqb_eq in H. congruence.
Qed.

Lemma get_default_none {V : Type} (d : list (string * V)) (k : string) (v : V) :
  dict_get d k = None -> dict_get_default d k v = v.
Proof. unfold dict_get_default. intros ->. reflexivity. Qed.

Lemma get_default_some {V : Type} (d : list (string * V)) (k : string) (v x : V) :
  dict_get d k = Some x -> dict_get_default d k v = x.
Proof. unfold dict_get_default. intros ->. reflexivity. Qed.

(** C10. A descriptor without [type] resolves as the same descriptor with
    [type] set to [basic] does, to the username and password when both are
    non-empty strings; and a [basic], [bearer] or [api_key] descriptor whose
    username, password, token or key is missing or empty raises [ValueError]
    with the message "Unsupported auth type: <tag>"; no credentials come
    back. *)
Theorem prepare_auth_incomplete (W : Runtime) (d : pydict) :
  (dict_get d "type" = None ->
   _prepare_auth W (PDict d)
   = _prepare_auth W (PDict (("type", PStr "basic") :: d)) /\
   forall username password,
     auth_field d "username" = PStr username ->
     auth_field d "password" = PStr password ->
     truthy (PStr username) = true -> truthy (PStr password) = true ->
     _prepare_auth W (PDict d)
     = Ok (httpx.BasicAuth (PStr username) (PStr password))) /\
  (forall tag, incomplete d tag ->
   _prepare_auth W (PDict d)
   = Raise (ValueError ("Unsupported auth type: " ++ tag))).
Proof.
  split.
  - intros H. split.
    + unfold _prepare_auth. cbn [py_get obind]. unfold dict_get_default.
      cbn [dict_get String.eqb Ascii.eqb Bool.eqb]. rewrite H. reflexivity.
    + intros username password Hu Hp Tu Tp.
      unfold _prepare_auth, auth_field in *. cbn [py_get obind].
      rewrite !(get_default_none d "type") by exact H.
      cbn [eq_str String.eqb Ascii.eqb Bool.eqb].
      rewrite Hu, Hp, Tu, Tp. reflexivity.
  - intros tag [Hty Hf | Hty Hf | Hty Hf];
      unfold _prepare_auth, auth_field in *; cbn [py_get obind].
    + apply eq_str_true in Hty. rewrite !Hty, Hf. reflexivity.
    + rewrite !(get_default_some d "type" _ _ Hty), Hf. reflexivity.
    + rewrite !(get_default_some d "type" _ _ Hty), Hf. reflexivity.
Qed.

Lemma prepare_auth_incomplete_witness :
  _prepare_auth (stub_runtime unreachable)
    (PDict [("username", PStr "ada"); ("password", PStr "")])
  = Raise (ValueError "Unsupported auth type: basic")
  /\ _prepare_auth (stub_runtime unreachable)
       (PDict [("type", PStr "bearer"); ("token", PStr "")])
     = Raise (ValueError "Unsupported auth type: bearer")
  /\ _prepare_auth (stub_runtime unreachable)
       (PDict [("type", PStr "api_key"); ("header", PStr "X-Key")])
     = Raise (ValueError "Unsupported auth type: api_key")
  /\ _prepare_auth (stub_runtime unreachable)
       (PDict [("username", PStr "ada"); ("password", PStr "s3cret")])
     = Ok (httpx.BasicAuth (PStr "ada") (PStr "s3cret")).
Proof.
  split; [|split; [|split]].
  - apply (proj2 (prepare_auth_incomplete (stub_runtime unreachable)
                    [("username", PStr "ada"); ("password", PStr "")]) "basic").
    apply incomplete_basic; reflexivity.
  - apply (proj2 (prepare_auth_incomplete (stub_runtime unreachable)
                    [("type", PStr "bearer"); ("token", PStr "")]) "bearer").
    apply incomplete_bearer; reflexivity.
  - apply (proj2 (prepare_auth_incomplete (stub_runtime unreachable)
                    [("type", PStr "api_key"); ("header", PStr "X-Key")]) "api_key").
    apply incomplete_api_key; reflexivity.
  - apply (proj2 (proj1 (prepare_auth_incomplete (stub_runtime unreachable)
                           [("username", PStr "ada"); ("password", PStr "s3cret")])
                    eq_refl) "ada" "s3cret");
      reflexivity.
Defined.

(** ** C9: webhook fields are tested by truthiness *)

Definition missing_field_error : exn :=
  ValueError "Payload, signature, and secret are required for webhook validation".

Lemma validate_webhook_falsy (W : Runtime) (d : pydict) (self : plugin) :
  forallb truthy [ dict_get_default d "payload" PNone;
                   dict_get_default d "signature" PNone;
                   dict_get_default d "secret" PNone ] = false ->
  _validate_webhook W (PDict d) self
  = (Raise missing_field_error, logged "Validating webhook signature" self).
Proof.
  intros H. unfold _validate_webhook. cbn [py_get].
  rewrite !bind_ok, bind_log, H. reflexivity.
Qed.

(** C9. When [payload], [signature] or [secret] is present in the descriptor
    with a falsy value (["" ], [{}], [0], [False], ...), verification raises
    the missing-field [ValueError], whatever the hash functions at hand: the
    only effect is the first log line, and no result, hence no signature, is
    produced. *)
Theorem validate_webhook_truthiness
  (W : Runtime) (d : pydict) (self : plugin) (k : string) (v : pyval) :
  In k ["payload"; "signature"; "secret"] ->
  dict_get d k = Some v ->
  truthy v = false ->
  _validate_webhook W (PDict d) self
  = (Raise missing_field_error, logged "Validating webhook signature" self).
Proof.
  intros Hk Hget Hv. apply validate_webhook_falsy.
  cbn [forallb].
  destruct Hk as [<-|[<-|[<-|[]]]];
    rewrite (get_default_some d _ PNone v Hget), Hv;
    rewrite ?andb_false_r; reflexivity.
Qed.

Lemma validate_webhook_truthiness_witness :
  _validate_webhook (stub_runtime unreachable)
    (PDict [ ("payload", PDict []);
             ("signature", PStr "5910e620");
             ("secret", PStr "s3cret") ])
    (ready_plugin (stub_runtime unreachable))
  = (Raise missing_field_error,
     logged "Validating webhook signature"
       (ready_plugin (stub_runtime unreachable))).
Proof.
  apply (validate_webhook_truthiness (stub_runtime unreachable) _ _
           "payload" (PDict [])).
  - cbn. auto.
  - reflexivity.
  - reflexivity.
Defined.

(** ** What a batch counts *)

(** What line 218 counts as a success: the [success] entry when there is
    one, and [True] when there is none. *)
Definition counted_successful (r : pydict) : bool :=
  match dict_get r "success" with
  | Some v => truthy v
  | None => true
  end.

Lemma filter_partition_length {X : Type} (p : X -> bool) (l : list X) :
  (List.length (filter p l) + List.length (filter (fun x => negb (p x)) l)
   = List.length l)%nat.
Proof.
  induction l as [|x l IH]; cbn; [reflexivity|].
  destruct (p x); cbn; lia.
Qed.


(** A result marked as a success: its [success] entry is [True].  A result
    without the entry is not. *)
Definition marked_successful (r : pydict) : bool :=
  match dict_get r "success" with
  | Some (PBool true) => true
  | _ => false
  end.


(** ** Total correctness of a method run

    [returns m self P]: run from [self], [m] returns a value and leaves an
    object that satisfy [P]; it does not raise. *)

Definition returns {A : Type} (m : M A) (self : plugin)
  (P : A -> plugin -> Prop) : Prop :=
  match m self with
  | (Ok a, self') => P a self'
  | (Raise _, _) => False
  end.

Section Returns.

Variable W : Runtime.
Context {A B : Type}.

Lemma returns_ret (a : A) (self : plugin) (P : A -> plugin -> Prop) :
  P a self -> returns (ret a) self P.
Proof. exact (fun H => H). Qed.

Lemma returns_bind (m : M A) (f : A -> M B) (self : plugin)
  (P : B -> plugin -> Prop) :
  returns m self (fun a s => returns (f a) s P) -> returns (bind m f) self P.
Proof.
  unfold returns, bind. destruct (m self) as [[a|e] s]; [auto|intros []].
Qed.

Lemma returns_log (message : string) (self : plugin)
  (P : unit -> plugin -> Prop) :
  P tt (logged message self) -> returns (_log message) self P.
Proof. unfold returns. rewrite log_run. auto. Qed.

Lemma returns_now (self : plugin) (P : Q -> plugin -> Prop) :
  P (clock W (ticks self)) (set_ticks self (S (ticks self))) ->
  returns (now W) self P.
Proof. exact (fun H => H). Qed.

Lemma returns_ok (a : A) (self : plugin) (P : A -> plugin -> Prop) :
  P a self -> returns (lift (Ok a)) self P.
Proof. exact (fun H => H). Qed.

(** A [try] whose handler returns: whatever the body did, the
    continuation runs on some value. *)
Lemma returns_try (body : M A) (handler : exn -> M A) (self : plugin)
  (P : A -> plugin -> Prop) :
  (forall a s, body self = (Ok a, s) -> P a s) ->
  (forall e s, body self = (Raise e, s) -> returns (handler e) s P) ->
  returns (try_except body handler) self P.
Proof.
  unfold returns, try_except. intros Hok Hraise.
  destruct (body self) as [[a|e] s]; [apply Hok | apply Hraise]; reflexivity.
Qed.

End Returns.

(** ** C5: the verdict of a health report *)

Definition is_healthy (check : pydict) : bool :=
  eq_str (dict_get_default check "status" PNone) "healthy".

Definition healthy_count (checks : list (string * pydict)) : Z :=
  Z.of_nat (List.length (filter is_healthy (map snd checks))).

Lemma majority_test (t h : Z) :
  Qlt_bool (inject_Z t / 2)%Q (inject_Z h) = (t <? 2 * h).
Proof.
  unfold Qlt_bool.
  destruct (Z.ltb_spec t (2 * h)) as [L|L];
    destruct (Qle_bool (inject_Z h) (inject_Z t / 2)) eqn:E;
    try reflexivity; exfalso.
  - apply Qle_bool_iff in E. unfold Qle in E. cbn in E. lia.
  - assert (F : (inject_Z h <= inject_Z t / 2)%Q) by (unfold Qle; cbn; lia).
    apply Qle_bool_iff in F. congruence.
Qed.

Lemma healthy_count_le (checks : list (string * pydict)) :
  0 <= healthy_count checks <= Z.of_nat (List.length checks).
Proof.
  unfold healthy_count.
  pose proof (filter_partition_length is_healthy (map snd checks)) as P.
  rewrite length_map in P. lia.
Qed.

Lemma overall_health_tests (checks : list (string * pydict)) :
  overall_health checks
  = if healthy_count checks =? Z.of_nat (List.length checks) then "healthy"
    else if Z.of_nat (List.length checks) <? 2 * healthy_count checks
         then "degraded" else "unhealthy".
Proof.
  unfold overall_health. rewrite majority_test, length_map. reflexivity.
Qed.

(** The rule of lines 430-440 on any set of checks. *)
Lemma overall_health_rule (checks : list (string * pydict)) :
  let h := healthy_count checks in
  let t := Z.of_nat (List.length checks) in
  (h = t -> overall_health checks = "healthy") /\
  (h < t -> t < 2 * h -> overall_health checks = "degraded") /\
  (h < t -> 2 * h <= t -> overall_health checks = "unhealthy").
Proof.
  cbn zeta. rewrite overall_health_tests.
  set (h := healthy_count checks). set (t := Z.of_nat (List.length checks)).
  destruct (Z.eqb_spec h t), (Z.ltb_spec t (2 * h)); repeat split; intros;
    try reflexivity; exfalso; lia.
Qed.

Definition healthy_check : pydict := [("status", PStr "healthy")].
Definition unhealthy_check : pydict :=
  [("status", PStr "unhealthy"); ("error", PStr "timed out")].

Example two_of_three_is_degraded :
  overall_health [ ("connectivity", healthy_check); ("ssl", healthy_check);
                   ("security_headers", unhealthy_check) ] = "degraded".
Proof. reflexivity. Qed.

Example one_of_three_is_unhealthy :
  overall_health [ ("connectivity", healthy_check); ("ssl", unhealthy_check);
                   ("security_headers", unhealthy_check) ] = "unhealthy".
Proof. reflexivity. Qed.

Example three_of_three_is_healthy :
  overall_health [ ("connectivity", healthy_check); ("ssl", healthy_check);
                   ("security_headers", healthy_check) ] = "healthy".
Proof. reflexivity. Qed.

Example one_of_two_is_unhealthy :
  overall_health [ ("connectivity", healthy_check);
                   ("security_headers", unhealthy_check) ] = "unhealthy".
Proof. reflexivity. Qed.

(** C5. A health check of a URL given as a string returns a report whose
    checks are [connectivity], [ssl] (exactly when the URL starts with
    "https://") and [security_headers], and whose verdict is [healthy] when
    all of them are healthy, [degraded] when the healthy ones are more than
    half but not all, and [unhealthy] otherwise, a tie included. *)
Theorem health_check_verdict (W : Runtime) (u : string) (self : plugin) :
  returns (_health_check W (PStr u)) self
    (fun report _ =>
       exists checks,
         dict_get report "checks" = Some (checks_value checks) /\
         map fst checks
         = (if startswith u "https://"
            then ["connectivity"; "ssl"; "security_headers"]
            else ["connectivity"; "security_headers"]) /\
         dict_get report "overall" = Some (PStr (overall_health checks)) /\
         let h := healthy_count checks in
         let t := Z.of_nat (List.length checks) in
         (h = t -> overall_health checks = "healthy") /\
         (h < t -> t < 2 * h -> overall_health checks = "degraded") /\
         (h < t -> 2 * h <= t -> overall_health checks = "unhealthy") /\
         (2 * h = t -> overall_health checks = "unhealthy")).
Proof.
  unfold _health_check.
  apply returns_bind, returns_log.
  apply returns_bind, returns_now.
  apply returns_bind, returns_try;
    [intros c1 s1 _ | intros e1 s1 _; apply returns_ret with (a := _)].
  all: apply returns_bind, returns_ok.
  all: destruct (startswith u "https://") eqn:Hs.
  all: apply returns_bind.
  all: try (apply returns_bind, returns_try;
            [intros c2 s2 _ | intros e2 s2 _]; apply returns_ret).
  all: try apply returns_ret.
  all: apply returns_bind, returns_try;
    [intros c3 s3 _ | intros e3 s3 _; apply returns_ret with (a := _)].
  all: apply returns_bind, returns_log, returns_ret.
  all: eexists; split; [reflexivity|]; split; [reflexivity|];
    split; [reflexivity|].
  all: match goal with
       | |- context [overall_health ?c] =>
           pose proof (overall_health_rule c) as (R1 & R2 & R3);
           pose proof (healthy_count_le c) as L
       end.
  all: cbn zeta in *; repeat split; auto.
  all: intros E; apply R3; cbn [dict_set String.eqb Ascii.eqb Bool.eqb List.length]
    in *; lia.
Qed.

(** ** C6: classification of a response *)

(** The declared content type as [_parse_response] reads it. *)
Definition declared_type (response : httpx.Response) : string :=
  str_lower (httpx.headers_get (httpx.headers response) "content-type" "").

Lemma lower_upper_char (c : ascii) : lower_char (upper_char c) = lower_char c.
Proof.
  destruct c as [[] [] [] [] [] [] [] []]; reflexivity.
Qed.

(** Lower-casing forgets the case of the declared type. *)
Lemma str_lower_upper (s : string) : str_lower (str_upper s) = str_lower s.
Proof.
  induction s as [|c s IH]; cbn; [reflexivity|].
  rewrite lower_upper_char. f_equal. exact IH.
Qed.

Lemma decode_b64encode (content : bytes) :
  b64decode (decode_utf8 (b64encode content)) = Some content.
Proof.
  unfold decode_utf8, b64encode, encode_utf8.
  rewrite string_of_list_byte_of_string. apply b64decode_encode.
Qed.

(** The case of the declared type does not matter. *)
Lemma declared_type_ignores_case
  (status : Z) (hs : list (string * string)) (u : string) (body : bytes)
  (v : string) :
  declared_type (httpx.mkResponse status (("content-type", str_upper v) :: hs) u body)
  = declared_type (httpx.mkResponse status (("content-type", v) :: hs) u body).
Proof. unfold declared_type. cbn. apply str_lower_upper. Qed.

Example png_is_binary :
  dict_get (_parse_response (stub_runtime unreachable) ok_png) "data"
  = Some (PStr "iVBORw0KGgo=") /\
  b64decode "iVBORw0KGgo=" = Some (httpx.content ok_png).
Proof. split; reflexivity. Qed.

Example json_type_in_any_case :
  dict_get (_parse_response (stub_runtime unreachable) ok_json) "contentType"
  = Some (PStr "json").
Proof. reflexivity. Qed.

(** C6. The result of the classifier always has the status code, the
    headers, the final URL and [success = (status < 400)], then [data] and
    one [contentType]: by the lower-cased content type, "application/json"
    gives the parsed body under [json], or, when parsing raises, the text
    "Error parsing response: <message>" under [error] (nothing is raised);
    otherwise "text/" or "application/xml" gives the text under [text];
    otherwise the base64 text of the bytes under [binary] with their number
    in [size], and decoding that text gives the bytes back. *)
Theorem parse_response_classifies (W : Runtime) (response : httpx.Response) :
  let r := _parse_response W response in
  let ct := declared_type response in
  dict_get r "status" = Some (PInt (httpx.status_code response)) /\
  dict_get r "headers"
  = Some (PDict (httpx.headers_dict (httpx.headers response))) /\
  dict_get r "url" = Some (PStr (httpx.url response)) /\
  dict_get r "success" = Some (PBool (httpx.status_code response <? 400)) /\
  if str_contains "application/json" ct then
    match response_json W response with
    | Ok v =>
        map fst r = ["status"; "headers"; "url"; "success"; "data"; "contentType"] /\
        dict_get r "contentType" = Some (PStr "json") /\
        dict_get r "data" = Some v
    | Raise e =>
        map fst r = ["status"; "headers"; "url"; "success"; "data"; "contentType"] /\
        dict_get r "contentType" = Some (PStr "error") /\
        dict_get r "data" = Some (PStr ("Error parsing response: " ++ str_exn e))
    end
  else if str_contains "text/" ct || str_contains "application/xml" ct then
    map fst r = ["status"; "headers"; "url"; "success"; "data"; "contentType"] /\
    dict_get r "contentType" = Some (PStr "text") /\
    dict_get r "data" = Some (PStr (response_text W response))
  else
    map fst r
    = ["status"; "headers"; "url"; "success"; "data"; "contentType"; "size"] /\
    dict_get r "contentType" = Some (PStr "binary") /\
    dict_get r "size"
    = Some (PInt (Z.of_nat (List.length (httpx.content response)))) /\
    exists text,
      dict_get r "data" = Some (PStr text) /\
      b64decode text = Some (httpx.content response).
Proof.
  cbn zeta. unfold _parse_response. fold (declared_type response).
  destruct (str_contains "application/json" (declared_type response)).
  - destruct (response_json W response) as [v|e]; cbn; auto 10.
  - destruct (str_contains "text/" (declared_type response)
              || str_contains "application/xml" (declared_type response)).
    + cbn. auto 10.
    + cbn. repeat split. eexists. split; [reflexivity|].
      apply decode_b64encode.
Qed.

(** ** C3: webhook verification *)














(** ** C8: where the URL is validated *)

Definition url_required : exn := ValueError "URL is required for API request".

(** The failure record that [make_single_request] builds. *)
Definition failure_record (endpoint : pydict) (e : exn) : pydict :=
  [ ("url", dict_get_default endpoint "url" PNone);
    ("error", PStr (str_exn e));
    ("success", PBool false) ].

Lemma make_request_without_url (W : Runtime) (d : pydict) (self : plugin) :
  truthy (dict_get_default d "url" PNone) = false ->
  exists e,
    _make_request W (PDict d) self = (Raise e, self) /\
    (forall m, dict_get d "method" = Some (PStr m) ->
               dict_get d "url" <> None -> e = url_required).
Proof.
  intros Hu. unfold _make_request. cbn [py_getitem].
  destruct (dict_get d "method") as [m|] eqn:Hm.
  - rewrite bind_ok.
    destruct m; cbn [py_upper];
      try (eexists; split; [reflexivity | intros ? [=]]).
    rewrite bind_ok.
    destruct (dict_get d "url") as [u|] eqn:Hurl.
    + rewrite bind_ok.
      rewrite (get_default_some d "url" PNone u Hurl) in Hu. rewrite Hu.
      eexists; split; [reflexivity | reflexivity].
    + eexists; split; [reflexivity | intros ? _ []; reflexivity].
  - eexists; split; [reflexivity | intros ? [=]].
Qed.

Lemma single_request_records (W : Runtime) (d : pydict) (self self' : plugin)
  (e : exn) :
  _make_request W (PDict d) self = (Raise e, self') ->
  make_single_request W (PDict d) self = (Ok (failure_record d e), self').
Proof.
  intros H. unfold make_single_request, try_except. rewrite H. reflexivity.
Qed.

Lemma single_request_passes (W : Runtime) (x : pyval) (self self' : plugin)
  (r : pydict) :
  _make_request W x self = (Ok r, self') ->
  make_single_request W x self = (Ok r, self').
Proof.
  intros H. unfold make_single_request, try_except. rewrite H. reflexivity.
Qed.

(** What one [client.get] does to the object, whatever comes back. *)
Lemma client_get_effect (W : Runtime) (u : pyval) (s : plugin)
  (c : httpx.AsyncClient) :
  client s = Some c ->
  exists o,
    client_get W u s = (o, set_sent s (sent s ++ [httpx.get_request u])%list).
Proof.
  intros H. unfold client_get, client_call. rewrite H. eexists. reflexivity.
Qed.

Section TryState.

Variable W : Runtime.
Context {A : Type}.

(** A [try] block followed through a property of the object that holds
    after the body, however the body ends. *)
Lemma returns_try_state (body : M A) (handler : exn -> M A) (self : plugin)
  (Q : plugin -> Prop) (P : A -> plugin -> Prop) :
  (forall o s, body self = (o, s) -> Q s) ->
  (forall a s, Q s -> P a s) ->
  (forall e s, Q s -> returns (handler e) s P) ->
  returns (try_except body handler) self P.
Proof.
  intros HQ Hok Hraise. apply returns_try.
  - intros a s E. apply Hok. exact (HQ _ _ E).
  - intros e s E. apply Hraise. exact (HQ _ _ E).
Qed.

End TryState.

(** The object has the client [c] and has sent [reqs]. *)
Definition has_sent (c : httpx.AsyncClient) (reqs : list httpx.Request)
  (s : plugin) : Prop :=
  client s = Some c /\ sent s = reqs.

Lemma has_sent_logged c reqs m s :
  has_sent c reqs s -> has_sent c reqs (logged m s).
Proof.
  intros [H1 H2]. split; [rewrite logged_client | rewrite logged_sent]; auto.
Qed.

Lemma has_sent_tick c reqs n s :
  has_sent c reqs s -> has_sent c reqs (set_ticks s n).
Proof. intros [H1 H2]. split; auto. Qed.

Lemma has_sent_get (W : Runtime) c reqs u s o s' :
  has_sent c reqs s -> client_get W u s = (o, s') ->
  has_sent c (reqs ++ [httpx.get_request u])%list s'.
Proof.
  intros [H1 H2] E. destruct (client_get_effect W u s c H1) as [o' E'].
  rewrite E' in E. injection E as _ <-. split; cbn; [exact H1 | now rewrite H2].
Qed.

Ltac body_sent W S :=
  intros ? ?; unfold bind, now, ret; cbn beta iota;
  match goal with
  | |- context [client_get W ?u ?s] =>
      let E := fresh "E" in
      destruct (client_get W u s) as [[?|?] ?] eqn:E;
      repeat match goal with
        | |- context [if ?b then _ else _] => destruct b
        | |- context [match ?x with Ok _ => _ | Raise _ => _ end] => destruct x
        end;
      cbn; intros [= <- <-]; repeat apply has_sent_tick;
      (eapply has_sent_get; [|exact E]); repeat apply has_sent_tick; exact S
  end.

(** The diagnostics do not look at the URL: they hand it to the client
    three times and report. *)
Lemma test_endpoint_hands_url_over
  (W : Runtime) (d : pydict) (self : plugin) (u : pyval)
  (c : httpx.AsyncClient) :
  dict_get d "url" = Some u -> client self = Some c ->
  returns (_test_endpoint W (PDict d)) self
    (fun report self' =>
       dict_get report "url" = Some u /\
       sent self'
       = (sent self ++ [httpx.get_request u; httpx.get_request u;
                        httpx.get_request u])%list).
Proof.
  intros Hu Hc. unfold _test_endpoint. cbn [py_getitem]. rewrite Hu.
  apply returns_bind, returns_ok. apply returns_bind, returns_log.
  assert (S0 : has_sent c (sent self)
                 (logged ("Testing endpoint: " ++ py_str W u) self))
    by (apply has_sent_logged; split; auto).
  revert S0. generalize (logged ("Testing endpoint: " ++ py_str W u) self).
  intros s0 S0. set (g := httpx.get_request u).
  (* Test 1 *)
  apply returns_bind.
  apply returns_try_state with (Q := has_sent c (sent self ++ [g])%list);
    [ body_sent W S0
    | intros [tests1 overall1] s1 S1
    | intros e1 s1 S1; apply returns_ret ].
  (* Test 2 *)
  all: apply returns_bind.
  all: apply returns_try_state
         with (Q := has_sent c ((sent self ++ [g]) ++ [g])%list);
    [ body_sent W S1
    | intros [tests2 overall2] s2 S2
    | intros e2 s2 S2; apply returns_ret ].
  (* Test 3 *)
  all: apply returns_bind.
  all: apply returns_try_state
         with (Q := has_sent c (((sent self ++ [g]) ++ [g]) ++ [g])%list);
    [ body_sent W S2
    | intros [tests3 overall3] s3 S3
    | intros e3 s3 S3; apply returns_ret ].
  all: apply returns_bind, returns_log, returns_ret.
  all: split; [reflexivity|].
  all: rewrite logged_sent; destruct S3 as [_ ->];
    rewrite <- !app_assoc; reflexivity.
Qed.

(** Nor does the health check: it hands the URL to the client for each of
    its checks. *)
Lemma health_check_hands_url_over
  (W : Runtime) (self : plugin) (u : string) (c : httpx.AsyncClient) :
  client self = Some c ->
  returns (_health_check W (PStr u)) self
    (fun _ self' =>
       sent self'
       = (sent self
          ++ if startswith u "https://"
             then [httpx.get_request (PStr u); httpx.get_request (PStr u);
                   httpx.get_request (PStr u)]
             else [httpx.get_request (PStr u); httpx.get_request (PStr u)])%list).
Proof.
  intros Hc. unfold _health_check.
  apply returns_bind, returns_log. apply returns_bind, returns_now.
  remember (set_ticks
              (logged ("Performing health check on " ++ py_str W (PStr u)) self)
              (S (ticks (logged ("Performing health check on "
                                 ++ py_str W (PStr u)) self)))) as s0 eqn:Es0.
  assert (S0 : has_sent c (sent self) s0)
    by (subst s0; apply has_sent_tick, has_sent_logged; split; auto).
  clear Es0. set (g := httpx.get_request (PStr u)).
  (* Check 1 *)
  apply returns_bind.
  apply returns_try_state with (Q := has_sent c (sent self ++ [g])%list);
    [ body_sent W S0
    | intros c1 s1 S1
    | intros e1 s1 S1; apply returns_ret ].
  all: apply returns_bind, returns_ok.
  all: destruct (startswith u "https://").
  (* Check 2 *)
  all: apply returns_bind.
  all: try (apply returns_bind;
            apply returns_try_state
              with (Q := has_sent c ((sent self ++ [g]) ++ [g])%list);
            [ body_sent W S1
            | intros c2 s2 S2; apply returns_ret
            | intros e2 s2 S2; apply returns_ret; apply returns_ret ]).
  all: try (apply returns_ret; rename S1 into S2; rename s1 into s2).
  (* Check 3 *)
  all: apply returns_bind.
  all: (apply returns_try_state
          with (Q := has_sent c (((sent self ++ [g]) ++ [g]) ++ [g])%list);
        [ body_sent W S2
        | intros c3 s3 S3
        | intros e3 s3 S3; apply returns_ret ])
       || (apply returns_try_state
             with (Q := has_sent c ((sent self ++ [g]) ++ [g])%list);
           [ body_sent W S2
           | intros c3 s3 S3
           | intros e3 s3 S3; apply returns_ret ]).
  all: apply returns_bind, returns_log, returns_ret.
  all: rewrite logged_sent; destruct S3 as [_ ->];
    rewrite <- !app_assoc; reflexivity.
Qed.

(** A URL that is not a string, [None] for one, gets through the
    connectivity check of the health check and no further: the check hands
    it to the client, and then [url.startswith] raises. *)
Lemma health_check_not_a_string
  (W : Runtime) (u : pyval) (self : plugin) (c : httpx.AsyncClient) :
  (forall s, u <> PStr s) -> client self = Some c ->
  exists self',
    _health_check W u self = (Raise (no_attribute u "startswith"), self') /\
    sent self' = (sent self ++ [httpx.get_request u])%list.
Proof.
  intros Hu Hc. unfold _health_check. rewrite bind_log, bind_now.
  assert (Hs : py_startswith u "https://" = Raise (no_attribute u "startswith"))
    by (destruct u; try reflexivity; exfalso; eapply Hu; reflexivity).
  unfold bind, try_except, now, lift, ret, client_get, client_call.
  rewrite Hs.
  repeat first
    [ rewrite logged_client | progress cbn [client set_ticks set_sent] ].
  rewrite Hc.
  destruct (transport W c _ _) as [r|e]; cbv beta iota;
    (eexists; split; [reflexivity|]);
    cbn [sent set_ticks set_sent]; rewrite logged_sent; reflexivity.
Qed.

(** C8 as the code has it.  A single request, and so each item of a batch,
    whose URL is absent or falsy fails before anything is sent or logged
    (the object is unchanged), with the [ValueError] "URL is required for
    API request" when the descriptor has a string method and a [url] entry;
    in a batch the error becomes the item's failure record.  The endpoint
    diagnostics and the health check validate nothing.  The diagnostics
    hand the URL, whatever it is, to the client three times and report what
    comes back.  The health check does so with a URL that is a string,
    empty or not, once for each of its checks; a URL that is not a string,
    as [None] for an absent one, is handed over once, and then
    [url.startswith] raises [AttributeError] and there is no report. *)
Theorem url_validation (W : Runtime) (d : pydict) (self : plugin) :
  (truthy (dict_get_default d "url" PNone) = false ->
   exists e,
     _make_request W (PDict d) self = (Raise e, self) /\
     make_single_request W (PDict d) self = (Ok (failure_record d e), self) /\
     (forall m, dict_get d "method" = Some (PStr m) ->
                dict_get d "url" <> None -> e = url_required)) /\
  (forall u c,
     dict_get d "url" = Some u -> client self = Some c ->
     returns (_test_endpoint W (PDict d)) self
       (fun report self' =>
          dict_get report "url" = Some u /\
          sent self'
          = (sent self ++ [httpx.get_request u; httpx.get_request u;
                           httpx.get_request u])%list)) /\
  (forall u c,
     client self = Some c ->
     returns (_health_check W (PStr u)) self
       (fun _ self' =>
          sent self'
          = (sent self
             ++ if startswith u "https://"
                then [httpx.get_request (PStr u); httpx.get_request (PStr u);
                      httpx.get_request (PStr u)]
                else [httpx.get_request (PStr u); httpx.get_request (PStr u)])%list)) /\
  (forall u c,
     (forall s, u <> PStr s) -> client self = Some c ->
     exists self',
       _health_check W u self = (Raise (no_attribute u "startswith"), self') /\
       sent self' = (sent self ++ [httpx.get_request u])%list).
Proof.
  split; [|split; [|split]].
  - intros Hu. destruct (make_request_without_url W d self Hu) as (e & Run & Val).
    exists e. split; [exact Run|]. split; [|exact Val].
    apply single_request_records. exact Run.
  - intros u c. apply test_endpoint_hands_url_over.
  - intros u c. apply health_check_hands_url_over.
  - intros u c. apply health_check_not_a_string.
Qed.

Definition request_without_url : pydict :=
  [ ("type", PStr "request"); ("method", PStr "GET"); ("url", PStr "") ].

Lemma url_validation_witness :
  _make_request (stub_runtime unreachable) (PDict request_without_url)
    (ready_plugin (stub_runtime unreachable))
  = (Raise url_required, ready_plugin (stub_runtime unreachable))
  /\ make_single_request (stub_runtime unreachable) (PDict request_without_url)
       (ready_plugin (stub_runtime unreachable))
     = (Ok (failure_record request_without_url url_required),
        ready_plugin (stub_runtime unreachable))
  /\ exists self',
       _health_check (stub_runtime unreachable) PNone
         (ready_plugin (stub_runtime unreachable))
       = (Raise (AttributeError
                   "'NoneType' object has no attribute 'startswith'"),
          self') /\
       sent self' = [httpx.get_request PNone].
Proof.
  destruct (proj1 (url_validation (stub_runtime unreachable)
                     request_without_url
                     (ready_plugin (stub_runtime unreachable))) eq_refl)
    as (e & Run & Item & Val).
  assert (E : e = url_required).
  { apply (Val "GET"); [reflexivity | discriminate]. }
  rewrite E in Run, Item. split; [assumption|]. split; [assumption|].
  exact (proj2 (proj2 (proj2 (url_validation (stub_runtime unreachable)
                                request_without_url
                                (ready_plugin (stub_runtime unreachable)))))
           PNone
           (httpx.mkAsyncClient (PInt 30) (PBool true) (PBool true)
              [("User-Agent", PStr "DevFlow-ApiIntegration/1.0")] false)
           (fun s (H : PNone = PStr s) =>
              eq_ind PNone
                (fun v => match v with PNone => True | _ => False end)
                I (PStr s) H)
           eq_refl).
Defined.

Definition diagnose_empty_url : pydict :=
  [ ("inputData",
     PDict [ ("operation", PStr "test_endpoint"); ("url", PStr "") ]) ].

(** The claim as the specification words it fails for the diagnostics: with
    an empty URL nothing is refused, the URL goes to the client three times
    and the invocation ends as a success carrying a report. *)
Lemma diagnostics_accept_empty_url :
  truthy (PStr "") = false /\
  sent (snd (execute_async (stub_runtime unreachable) diagnose_empty_url
               (fresh_plugin (stub_runtime unreachable))))
  = [ httpx.get_request (PStr ""); httpx.get_request (PStr "");
      httpx.get_request (PStr "") ] /\
  exists envelope report,
    fst (execute_async (stub_runtime unreachable) diagnose_empty_url
           (fresh_plugin (stub_runtime unreachable)))
    = Ok envelope /\
    dict_get envelope "success" = Some (PBool true) /\
    dict_get envelope "data" = Some (PDict report) /\
    dict_get report "overall" = Some (PStr "failed").
Proof.
  split; [reflexivity|]. split; [vm_compute; reflexivity|].
  eexists. eexists. split; [vm_compute; reflexivity|].
  split; [reflexivity|]. split; reflexivity.
Qed.

(** ** C1: a status outside the expected list *)

(** The error of [_validate_response]: it is built from the status code and
    the expected list, and from nothing else of the response. *)
Definition unexpected_status (W : Runtime) (status : Z) (expected : pyval) : exn :=
  ValueError ("Unexpected status code: " ++ str_of_int status
              ++ ", expected one of " ++ py_str W expected).

Lemma validate_response_rejects (W : Runtime) (response : httpx.Response)
  (expected : pyval) :
  not_in (httpx.status_code response) expected = Ok true ->
  _validate_response W response expected
  = Raise (unexpected_status W (httpx.status_code response) expected).
Proof. intros H. unfold _validate_response. rewrite H. reflexivity. Qed.

Lemma bind_assoc {A B C : Type} (m : M A) (g : A -> M B) (f : B -> M C)
  (self : plugin) :
  bind (bind m g) f self = bind m (fun x => bind (g x) f) self.
Proof. unfold bind. destruct (m self) as [[a|e] s]; reflexivity. Qed.

(** C1 as the code has it.  When the request is built and sent, the
    response comes back, validation is enabled and the status is not in the
    expected list, [_make_request] raises the [ValueError] "Unexpected status
    code: <status>, expected one of <list>" after the call was made; the
    error is a message made of the status and the list alone. *)
Theorem make_request_unexpected_status
  (W : Runtime) (d : pydict) (self : plugin) (m : string) (u : pyval)
  (kwargs : httpx.Request) (c : httpx.AsyncClient) (response : httpx.Response) :
  dict_get d "method" = Some (PStr m) ->
  dict_get d "url" = Some u -> truthy u = true ->
  request_kwargs W (str_upper m) u (PDict d) = Ok kwargs ->
  client self = Some c ->
  transport W c (List.length (sent self)) kwargs = Ok response ->
  truthy (dict_get_default d "validateResponse" (PBool true)) = true ->
  not_in (httpx.status_code response)
    (dict_get_default d "expectedStatus" (PList [PInt 200])) = Ok true ->
  exists self',
    _make_request W (PDict d) self
    = (Raise (unexpected_status W (httpx.status_code response)
                (dict_get_default d "expectedStatus" (PList [PInt 200]))),
       self') /\
    sent self' = (sent self ++ [kwargs])%list.
Proof.
  intros Hm Hu Tu Hk Hc Ht Hv Hn.
  unfold _make_request. cbn [py_getitem py_get]. rewrite Hm, Hu.
  rewrite bind_ok. cbn [py_upper]. rewrite !bind_ok, Tu. cbn [negb].
  rewrite bind_log, Hk, bind_ok, bind_now.
  unfold bind at 1, client_call. cbn [client sent set_ticks].
  rewrite logged_client, Hc, logged_sent, Ht.
  rewrite bind_now, bind_log, bind_ok, Hv, bind_assoc, bind_ok.
  rewrite (validate_response_rejects W response _ Hn).
  unfold bind at 1. cbn [lift].
  eexists. split; [reflexivity|].
  rewrite logged_sent. cbn [sent set_ticks set_sent]. reflexivity.
Qed.

Definition sent_get_items : httpx.Request :=
  httpx.mkRequest "GET" (PStr "https://api.example.com/items/7")
    (Some (PDict [])) (Some (PDict [])) None None None None.

Lemma make_request_unexpected_status_witness :
  exists self',
    _make_request (stub_runtime (always not_found_json)) (PDict get_items)
      (ready_plugin (stub_runtime (always not_found_json)))
    = (Raise (ValueError
                "Unexpected status code: 404, expected one of [200, 201]"),
       self') /\
    sent self' = [sent_get_items].
Proof.
  exact (make_request_unexpected_status
           (stub_runtime (always not_found_json)) get_items
           (ready_plugin (stub_runtime (always not_found_json)))
           "get" (PStr "https://api.example.com/items/7") sent_get_items
           (httpx.mkAsyncClient (PInt 30) (PBool true) (PBool true)
              [("User-Agent", PStr "DevFlow-ApiIntegration/1.0")] false)
           not_found_json
           eq_refl eq_refl eq_refl eq_refl eq_refl eq_refl eq_refl eq_refl).
Defined.

Definition request_items : pydict :=
  [ ("inputData",
     PDict [ ("operation", PStr "request");
             ("method", PStr "get");
             ("url", PStr "https://api.example.com/items/7");
             ("expectedStatus", PList [PInt 200; PInt 201]) ]) ].

(** The claim as the specification words it fails: two responses with the
    same status and different headers and bodies end in the same error and
    in the same envelope, so neither carries the headers or the body. *)
Lemma unexpected_status_drops_the_response :
  httpx.headers not_found_json <> httpx.headers not_found_html /\
  httpx.content not_found_json <> httpx.content not_found_html /\
  fst (_make_request (stub_runtime (always not_found_json)) (PDict get_items)
         (ready_plugin (stub_runtime (always not_found_json))))
  = Raise (ValueError "Unexpected status code: 404, expected one of [200, 201]") /\
  fst (_make_request (stub_runtime (always not_found_html)) (PDict get_items)
         (ready_plugin (stub_runtime (always not_found_html))))
  = Raise (ValueError "Unexpected status code: 404, expected one of [200, 201]") /\
  fst (execute_async (stub_runtime (always not_found_json)) request_items
         (fresh_plugin (stub_runtime (always not_found_json))))
  = fst (execute_async (stub_runtime (always not_found_html)) request_items
           (fresh_plugin (stub_runtime (always not_found_html)))) /\
  exists envelope,
    fst (execute_async (stub_runtime (always not_found_json)) request_items
           (fresh_plugin (stub_runtime (always not_found_json))))
    = Ok envelope /\
    map fst envelope
    = ["success"; "message"; "executionTimeMs"; "timestamp"; "logs"].
Proof.
  split; [discriminate|]. split; [discriminate|].
  split; [vm_compute; reflexivity|]. split; [vm_compute; reflexivity|].
  split; [vm_compute; reflexivity|].
  eexists. split; [vm_compute; reflexivity | reflexivity].
Qed.

(** ** C7: the envelope of an invocation *)

(** Partial correctness of a run: when [m] returns, [P] holds. *)
Definition ensures {A : Type} (m : M A) (self : plugin)
  (P : A -> plugin -> Prop) : Prop :=
  match m self with
  | (Ok a, self') => P a self'
  | (Raise _, _) => True
  end.

Section Ensures.

Context {A B : Type}.

Lemma ensures_step (m : M A) (f : A -> M B) (self : plugin)
  (P : B -> plugin -> Prop) :
  (forall a s, ensures (f a) s P) -> ensures (bind m f) self P.
Proof.
  intros H. unfold ensures, bind.
  destruct (m self) as [[a|e] s]; [apply H | exact I].
Qed.

Lemma bind_read (g : plugin -> A) (f : A -> M B) (self : plugin) :
  bind (read g) f self = f (g self) self.
Proof. reflexivity. Qed.

Lemma bind_modify (g : plugin -> plugin) (f : unit -> M B) (self : plugin) :
  bind (modify g) f self = f tt (g self).
Proof. reflexivity. Qed.

End Ensures.

Definition success_keys : list string :=
  ["success"; "message"; "data"; "executionTimeMs"; "timestamp"; "logs"].

Definition failure_keys : list string :=
  ["success"; "message"; "executionTimeMs"; "timestamp"; "logs"].

(** The object when the [try] of [execute_async] starts. *)
Definition invoked (W : Runtime) (self : plugin) : plugin :=
  set_logs
    (set_start_time (set_ticks self (S (ticks self))) (clock W (ticks self)))
    [].

(** The object after the [finally] of [execute_async]. *)
Definition closed (self : plugin) : plugin := snd (close_client self).

Lemma close_client_run (self : plugin) :
  close_client self = (Ok tt, closed self).
Proof. reflexivity. Qed.

Lemma closed_logs (self : plugin) : logs (closed self) = logs self.
Proof.
  unfold closed, close_client, modify. cbn.
  destruct (client self); reflexivity.
Qed.

Lemma try_body_envelope (W : Runtime) (context : pydict) (self : plugin) :
  ensures (try_body W context) self
    (fun envelope s =>
       map fst envelope = success_keys /\
       dict_get envelope "success" = Some (PBool true) /\
       dict_get envelope "logs" = Some (PList (map PStr (logs s)))).
Proof.
  unfold try_body.
  do 12 (apply ensures_step; intros).
  unfold ensures. rewrite bind_read. cbn. auto.
Qed.

Lemma except_body_envelope (W : Runtime) (e : exn) (self : plugin) :
  returns (except_body W e) self
    (fun envelope s =>
       map fst envelope = failure_keys /\
       dict_get envelope "success" = Some (PBool false) /\
       dict_get envelope "message"
       = Some (PStr ("API operation failed: " ++ str_exn e)) /\
       dict_get envelope "data" = None /\
       dict_get envelope "logs" = Some (PList (map PStr (logs s)))).
Proof.
  unfold except_body, returns.
  rewrite bind_now, bind_read, bind_log, bind_now, bind_read. cbn. auto 10.
Qed.

(** C7 as the code has it.  An invocation always returns an envelope and
    never raises.  When the body of the [try] returns, the envelope is the
    one it built: [success = True] with the keys success, message, data,
    executionTimeMs, timestamp, logs.  When anything in the body raises,
    the envelope has [success = False], the keys success, message,
    executionTimeMs, timestamp, logs (no [data]), and the message
    "API operation failed: <the error's message>".  Either way [logs] is the
    log of the object. *)
Theorem execute_async_envelope (W : Runtime) (context : pydict) (self : plugin) :
  returns (execute_async W context) self
    (fun envelope self' =>
       dict_get envelope "logs" = Some (PList (map PStr (logs self'))) /\
       match try_body W context (invoked W self) with
       | (Ok built, _) =>
           envelope = built /\
           map fst envelope = success_keys /\
           dict_get envelope "success" = Some (PBool true)
       | (Raise e, _) =>
           map fst envelope = failure_keys /\
           dict_get envelope "success" = Some (PBool false) /\
           dict_get envelope "data" = None /\
           dict_get envelope "message"
           = Some (PStr ("API operation failed: " ++ str_exn e))
       end).
Proof.
  unfold execute_async, returns.
  rewrite bind_now, !bind_modify. fold (invoked W self).
  unfold try_finally, try_except.
  pose proof (try_body_envelope W context (invoked W self)) as Body.
  unfold ensures in Body.
  destruct (try_body W context (invoked W self)) as [[built|e] s1].
  - rewrite close_client_run. cbv beta iota. rewrite closed_logs. tauto.
  - pose proof (except_body_envelope W e s1) as Handler.
    unfold returns in Handler.
    destruct (except_body W e s1) as [[envelope|e'] s2]; [|contradiction].
    rewrite close_client_run. cbv beta iota. rewrite closed_logs. tauto.
Qed.

Definition delete_everything : pydict :=
  [ ("inputData",
     PDict [ ("operation", PStr "delete_everything");
             ("url", PStr "https://api.example.com/items") ]) ].

(** The claim as the specification words it fails: the envelope of a failed
    invocation has no [data] entry, so it has not the shape of a successful
    one, and the error's message is in [message]. *)
Lemma failure_envelope_has_no_data :
  exists envelope,
    fst (execute_async (stub_runtime unreachable) delete_everything
           (fresh_plugin (stub_runtime unreachable)))
    = Ok envelope /\
    map fst envelope = failure_keys /\
    map fst envelope <> success_keys /\
    dict_get envelope "data" = None /\
    dict_get envelope "message"
    = Some (PStr "API operation failed: Unsupported operation: delete_everything").
Proof.
  eexists. split; [vm_compute; reflexivity|].
  split; [reflexivity|]. split; [discriminate|]. split; reflexivity.
Qed.

(** ** C4: the result of a batch *)

(** What the batch keeps of an item: the result of its request, or the
    failure record of the error it raised. *)
Definition item_result (endpoint : pydict) (o : outcome pydict) : pydict :=
  match o with
  | Ok r => r
  | Raise e => failure_record endpoint e
  end.

(** A completed request whose status is 400 or more. *)
Definition error_status (r : pydict) : bool :=
  match dict_get r "status" with
  | Some (PInt status) => 400 <=? status
  | _ => false
  end.

(** An item fails when its request raises or completes with such a status. *)
Definition item_failed (o : outcome pydict) : bool :=
  match o with
  | Ok r => error_status r
  | Raise _ => true
  end.

(** The requests of the items, run one after the other from [self]. *)
Fixpoint item_outcomes (W : Runtime) (endpoints : list pydict) (self : plugin)
  : list (outcome pydict) * plugin :=
  match endpoints with
  | [] => ([], self)
  | endpoint :: rest =>
      let '(o, s1) := _make_request W (PDict endpoint) self in
      let '(os, s2) := item_outcomes W rest s1 in
      (o :: os, s2)
  end.

Definition item_results (endpoints : list pydict) (outcomes : list (outcome pydict))
  : list pydict :=
  map (fun p => item_result (fst p) (snd p)) (combine endpoints outcomes).

(** The object when the items of a batch of [n] endpoints start. *)
Definition batch_started (n : nat) (self : plugin) : plugin :=
  set_ticks
    (logged ("Making batch requests to " ++ str_of_int (Z.of_nat n)
             ++ " endpoints") self)
    (S (ticks (logged ("Making batch requests to " ++ str_of_int (Z.of_nat n)
                       ++ " endpoints") self))).

Lemma dict_get_set_other {V : Type} (d : list (string * V)) (k k' : string) (v : V) :
  k <> k' -> dict_get (dict_set d k v) k' = dict_get d k'.
Proof.
  intros N. induction d as [|[k0 v0] d IH]; cbn.
  - destruct (String.eqb_spec k k'); [contradiction | reflexivity].
  - destruct (String.eqb_spec k0 k) as [->|N0]; cbn.
    + destruct (String.eqb_spec k k'); [contradiction | reflexivity].
    + rewrite IH. reflexivity.
Qed.

Lemma parse_response_status (W : Runtime) (response : httpx.Response) :
  dict_get (_parse_response W response) "status"
  = Some (PInt (httpx.status_code response)) /\
  dict_get (_parse_response W response) "success"
  = Some (PBool (httpx.status_code response <? 400)).
Proof.
  unfold _parse_response.
  destruct (str_contains "application/json" _).
  - destruct (response_json W response); cbn; auto.
  - destruct (str_contains "text/" _ || str_contains "application/xml" _);
      cbn; auto.
Qed.

(** A request that returns, returns a parsed response with its timing. *)
Lemma make_request_result (W : Runtime) (x : pyval) (self : plugin) :
  ensures (_make_request W x) self
    (fun r _ =>
       exists response t,
         r = dict_set
               (dict_set (_parse_response W response) "requestTime" (PFloat t))
               "attempt" (PInt 1)).
Proof.
  unfold _make_request.
  do 3 (apply ensures_step; intros).
  destruct (negb (truthy a1)); [exact I|].
  do 8 (apply ensures_step; intros).
  unfold ensures, ret. eauto.
Qed.

Lemma request_result_counted (W : Runtime) (x : pyval) (self self' : plugin)
  (r : pydict) :
  _make_request W x self = (Ok r, self') ->
  counted_successful r = negb (error_status r).
Proof.
  intros E. pose proof (make_request_result W x self) as H.
  unfold ensures in H. rewrite E in H. destruct H as (response & t & ->).
  unfold counted_successful, error_status.
  rewrite !dict_get_set_other by discriminate.
  destruct (parse_response_status W response) as [-> ->]. cbn [truthy].
  destruct (Z.ltb_spec (httpx.status_code response) 400),
    (Z.leb_spec 400 (httpx.status_code response)); try reflexivity; lia.
Qed.

Lemma successful_count_cons (r : pydict) (rs : list pydict) :
  successful_count (r :: rs)
  = (if counted_successful r then 1 else 0) + successful_count rs.
Proof.
  unfold successful_count, counted_successful, dict_get_default. cbn [filter].
  destruct (dict_get r "success") as [v|]; cbv beta iota;
    [destruct (truthy v) | cbn [truthy]]; cbn [List.length]; lia.
Qed.

Section Batch.

Variable W : Runtime.

Lemma gather_items (endpoints : list pydict) (self : plugin) :
  gather (make_single_request W) (map PDict endpoints) self
  = (Ok (item_results endpoints (fst (item_outcomes W endpoints self))),
     snd (item_outcomes W endpoints self)).
Proof.
  revert self. induction endpoints as [|endpoint rest IH]; intros self.
  - reflexivity.
  - cbn [map gather item_outcomes]. unfold bind at 1.
    destruct (_make_request W (PDict endpoint) self) as [[r|e] s1] eqn:E.
    + rewrite (single_request_passes W _ _ _ _ E).
      unfold bind at 1. rewrite IH.
      destruct (item_outcomes W rest s1) as [os s2]. reflexivity.
    + rewrite (single_request_records W _ _ _ _ E).
      unfold bind at 1. rewrite IH.
      destruct (item_outcomes W rest s1) as [os s2]. reflexivity.
Qed.

Lemma item_outcomes_length (endpoints : list pydict) (self : plugin) :
  List.length (fst (item_outcomes W endpoints self)) = List.length endpoints.
Proof.
  revert self. induction endpoints as [|endpoint rest IH]; intros self.
  - reflexivity.
  - cbn [item_outcomes].
    destruct (_make_request W (PDict endpoint) self) as [o s1].
    specialize (IH s1). destruct (item_outcomes W rest s1) as [os s2].
    cbn in *. congruence.
Qed.

(** Successes and failures among the results, counted on the outcomes. *)
Lemma item_results_counts (endpoints : list pydict) (self : plugin) :
  successful_count (item_results endpoints (fst (item_outcomes W endpoints self)))
  = Z.of_nat (List.length endpoints)
    - Z.of_nat (List.length
                  (filter item_failed (fst (item_outcomes W endpoints self)))).
Proof.
  revert self. induction endpoints as [|endpoint rest IH]; intros self.
  - reflexivity.
  - cbn [item_outcomes].
    destruct (_make_request W (PDict endpoint) self) as [o s1] eqn:E.
    specialize (IH s1). destruct (item_outcomes W rest s1) as [os s2].
    cbn [fst] in *. unfold item_results in *. cbn [combine map fst snd].
    rewrite successful_count_cons, IH. cbn [filter List.length].
    destruct o as [r|e]; cbn [item_result item_failed].
    + rewrite (request_result_counted W _ _ _ _ E).
      destruct (error_status r); cbn [negb List.length]; lia.
    + change (counted_successful (failure_record endpoint e)) with false.
      cbn [List.length]. lia.
Qed.

Lemma item_results_nth (endpoints : list pydict) (outcomes : list (outcome pydict))
  (i : nat) (endpoint : pydict) :
  List.length outcomes = List.length endpoints ->
  nth_error endpoints i = Some endpoint ->
  exists o, nth_error outcomes i = Some o /\
            nth_error (item_results endpoints outcomes) i
            = Some (item_result endpoint o).
Proof.
  revert outcomes i. induction endpoints as [|e rest IH]; intros [|o os] i L H;
    try discriminate.
  - destruct i; discriminate.
  - destruct i as [|i]; cbn in *.
    + injection H as ->. eauto.
    + apply IH; [lia | exact H].
Qed.

End Batch.

(** C4 as the code has it.  A batch of N endpoint descriptors returns, with
    [totalRequests = N] and N results in the order of the endpoints: the
    i-th is the result of the i-th request, or, when that request raised,
    the record of its url and error with [success = False]; the other items
    run all the same.  [failed] is the number K of items whose request
    raised or completed with a status of 400 or more, and [successful] is
    N - K. *)
Theorem batch_requests_counts (W : Runtime) (endpoints : list pydict)
  (self : plugin) :
  let outcomes :=
    fst (item_outcomes W endpoints (batch_started (List.length endpoints) self)) in
  let results := item_results endpoints outcomes in
  let N := Z.of_nat (List.length endpoints) in
  let K := Z.of_nat (List.length (filter item_failed outcomes)) in
  returns (_make_batch_requests W (PList (map PDict endpoints))) self
    (fun batch _ =>
       dict_get batch "totalRequests" = Some (PInt N) /\
       dict_get batch "successful" = Some (PInt (N - K)) /\
       dict_get batch "failed" = Some (PInt K) /\
       dict_get batch "results" = Some (PList (map PDict results)) /\
       List.length results = List.length endpoints /\
       forall i endpoint,
         nth_error endpoints i = Some endpoint ->
         exists o, nth_error outcomes i = Some o /\
                   nth_error results i = Some (item_result endpoint o)).
Proof.
  cbv zeta.
  pose proof (item_outcomes_length W endpoints
                (batch_started (List.length endpoints) self)) as L.
  pose proof (item_results_counts W endpoints
                (batch_started (List.length endpoints) self)) as C.
  set (outcomes :=
         fst (item_outcomes W endpoints
                (batch_started (List.length endpoints) self))) in *.
  assert (Lr : List.length (item_results endpoints outcomes)
               = List.length endpoints).
  { unfold item_results. rewrite length_map, length_combine. lia. }
  unfold _make_batch_requests, returns. cbn [py_len py_iter].
  rewrite length_map, bind_ok, bind_log, bind_now, bind_ok.
  match goal with
  | |- context [set_ticks ?a ?b] =>
      change (set_ticks a b) with (batch_started (List.length endpoints) self)
  end.
  rewrite (bind_run _ _ _ _ _ (gather_items W endpoints _)).
  fold outcomes.
  rewrite bind_now, bind_log, bind_ok.
  cbn [ret dict_get String.eqb Ascii.eqb Bool.eqb].
  unfold failed_count. rewrite C, Lr.
  repeat split; try exact Lr; try (do 2 f_equal; lia).
  intros i endpoint H. apply item_results_nth; assumption.
Qed.

Definition unvalidated_endpoint : pydict :=
  [ ("method", PStr "GET");
    ("url", PStr "https://api.example.com/items");
    ("validateResponse", PBool false) ].

(** The claim as the specification words it fails: the only item of this
    batch does not fail (its request returns a result, and no failure record
    is made), yet it is counted as failed, because its status is 500. *)
Lemma completed_error_status_counts_as_failed :
  exists batch r,
    fst (_make_batch_requests (stub_runtime (always server_error))
           (PList [PDict unvalidated_endpoint])
           (ready_plugin (stub_runtime (always server_error))))
    = Ok batch /\
    fst (_make_request (stub_runtime (always server_error))
           (PDict unvalidated_endpoint)
           (batch_started 1 (ready_plugin (stub_runtime (always server_error)))))
    = Ok r /\
    dict_get batch "results" = Some (PList [PDict r]) /\
    dict_get r "error" = None /\
    dict_get r "status" = Some (PInt 500) /\
    dict_get batch "failed" = Some (PInt 1) /\
    dict_get batch "successful" = Some (PInt 0).
Proof.
  eexists. eexists. split; [vm_compute; reflexivity|].
  split; [vm_compute; reflexivity|]. repeat split.
Qed.

(** Three endpoints of which the second cannot be reached and the third
    answers 404: one success, two failures, results in the order given. *)
Definition three_endpoints : list pydict :=
  [ [("method", PStr "GET"); ("url", PStr "https://api.example.com/items")];
    [("method", PStr "GET"); ("url", PStr "https://down.example.com/")];
    [("method", PStr "GET"); ("url", PStr "https://api.example.com/items/7")] ].

Definition second_down_third_missing
  : nat -> httpx.Request -> outcome httpx.Response :=
  fun n _ =>
    match n with
    | O => Ok ok_json
    | S O => Raise (LibraryError "ConnectError" "All connection attempts failed")
    | _ => Ok not_found_json
    end.

Example batch_of_three :
  exists batch first,
    fst (_make_batch_requests (stub_runtime second_down_third_missing)
           (PList (map PDict three_endpoints))
           (ready_plugin (stub_runtime second_down_third_missing)))
    = Ok batch /\
    dict_get batch "totalRequests" = Some (PInt 3) /\
    dict_get batch "successful" = Some (PInt 1) /\
    dict_get batch "failed" = Some (PInt 2) /\
    dict_get batch "results"
    = Some (PList
              [ PDict first;
                PDict [ ("url", PStr "https://down.example.com/");
                        ("error", PStr "All connection attempts failed");
                        ("success", PBool false) ];
                PDict [ ("url", PStr "https://api.example.com/items/7");
                        ("error",
                         PStr "Unexpected status code: 404, expected one of [200]");
                        ("success", PBool false) ] ]) /\
    dict_get first "status" = Some (PInt 200) /\
    dict_get first "contentType" = Some (PStr "json") /\
    dict_get first "attempt" = Some (PInt 1).
Proof.
  eexists. eexists. split; [vm_compute; reflexivity|]. repeat split.
Qed.

(** ** C2: the counts are a partition over the [success] field *)





(** The batch of three above: every result has its [success] entry, one is
    marked, two are not. *)
Example batch_of_three_partition :
  exists batch r1 r2 r3,
    fst (_make_batch_requests (stub_runtime second_down_third_missing)
           (PList (map PDict three_endpoints))
           (ready_plugin (stub_runtime second_down_third_missing)))
    = Ok batch /\
    dict_get batch "results" = Some (PList [PDict r1; PDict r2; PDict r3]) /\
    map marked_successful [r1; r2; r3] = [true; false; false] /\
    map (fun r => dict_get r "success") [r1; r2; r3]
    = [Some (PBool true); Some (PBool false); Some (PBool false)] /\
    dict_get batch "successful" = Some (PInt 1) /\
    dict_get batch "failed" = Some (PInt 2).
Proof.
  do 4 eexists. split; [vm_compute; reflexivity|]. repeat split.
Qed.

(** * Further properties of the plugin *)

(** ** Dispatch *)

Definition supported_operations : list string :=
  ["request"; "batch_requests"; "test_endpoint"; "webhook_validate";
   "health_check"].

(** X1. An operation whose type is none of the five supported ones raises
    the [ValueError] "Unsupported operation: <type>" and leaves the object
    as it was: nothing is logged and nothing is sent. *)
Theorem perform_operation_unsupported
  (W : Runtime) (d : pydict) (self : plugin) (t : pyval) :
  dict_get d "type" = Some t ->
  (forall k, In k supported_operations -> eq_str t k = false) ->
  _perform_operation W (PDict d) self
  = (Raise (ValueError ("Unsupported operation: " ++ py_str W t)), self).
Proof.
  intros Ht Hn. unfold _perform_operation. cbn [py_getitem]. rewrite Ht, bind_ok.
  rewrite !Hn by (cbn; auto 10). reflexivity.
Qed.

Lemma perform_operation_unsupported_witness :
  _perform_operation (stub_runtime unreachable)
    (PDict [("type", PStr "delete_everything"); ("method", PStr "GET");
            ("url", PStr "https://api.example.com/items")])
    (ready_plugin (stub_runtime unreachable))
  = (Raise (ValueError "Unsupported operation: delete_everything"),
     ready_plugin (stub_runtime unreachable)).
Proof.
  apply (perform_operation_unsupported (stub_runtime unreachable) _ _
           (PStr "delete_everything")).
  - reflexivity.
  - intros k Hk. cbn in Hk.
    destruct Hk as [<-|[<-|[<-|[<-|[<-|[]]]]]]; reflexivity.
Defined.

(** ** Authentication *)

(** X2. A complete descriptor resolves to its credentials: [basic] with a
    non-empty string as username and as password to the two as they are,
    [bearer] to one header "Authorization: Bearer <token>", [api_key] to one
    header under the given name, "X-API-Key" when none is given. *)
Theorem prepare_auth_resolves (W : Runtime) (d : pydict) :
  (forall username password,
     dict_get d "type" = Some (PStr "basic") ->
     auth_field d "username" = PStr username ->
     auth_field d "password" = PStr password ->
     truthy (PStr username) = true -> truthy (PStr password) = true ->
     _prepare_auth W (PDict d)
     = Ok (httpx.BasicAuth (PStr username) (PStr password))) /\
  (dict_get d "type" = Some (PStr "bearer") ->
   truthy (auth_field d "token") = true ->
   _prepare_auth W (PDict d)
   = Ok (httpx.AuthMapping
           [(PStr "Authorization",
             PStr ("Bearer " ++ py_str W (auth_field d "token")))])) /\
  (dict_get d "type" = Some (PStr "api_key") ->
   truthy (auth_field d "key") = true ->
   hashable (dict_get_default d "header" (PStr "X-API-Key")) = true ->
   _prepare_auth W (PDict d)
   = Ok (httpx.AuthMapping
           [(dict_get_default d "header" (PStr "X-API-Key"),
             auth_field d "key")])).
Proof.
  unfold _prepare_auth, auth_field. cbn [py_get obind].
  split; [|split].
  - intros username password Hty Hu Hp Tu Tp.
    rewrite !(get_default_some d "type" _ _ Hty), Hu, Hp.
    cbn [eq_str String.eqb Ascii.eqb Bool.eqb]. rewrite Tu, Tp. reflexivity.
  - intros Hty. rewrite !(get_default_some d "type" _ _ Hty).
    cbn [eq_str String.eqb Ascii.eqb Bool.eqb]. intros ->. reflexivity.
  - intros Hty. rewrite !(get_default_some d "type" _ _ Hty).
    cbn [eq_str String.eqb Ascii.eqb Bool.eqb]. intros -> ->. reflexivity.
Qed.

Lemma prepare_auth_resolves_witness :
  _prepare_auth (stub_runtime unreachable)
    (PDict [("type", PStr "basic"); ("username", PStr "ada");
            ("password", PStr "s3cret")])
  = Ok (httpx.BasicAuth (PStr "ada") (PStr "s3cret"))
  /\ _prepare_auth (stub_runtime unreachable)
       (PDict [("type", PStr "bearer"); ("token", PStr "abc.def")])
     = Ok (httpx.AuthMapping
             [(PStr "Authorization", PStr "Bearer abc.def")])
  /\ _prepare_auth (stub_runtime unreachable)
       (PDict [("type", PStr "api_key"); ("key", PStr "k-1")])
     = Ok (httpx.AuthMapping [(PStr "X-API-Key", PStr "k-1")]).
Proof.
  split; [|split].
  - exact (proj1 (prepare_auth_resolves (stub_runtime unreachable)
                    [("type", PStr "basic"); ("username", PStr "ada");
                     ("password", PStr "s3cret")])
             "ada" "s3cret" eq_refl eq_refl eq_refl eq_refl eq_refl).
  - exact (proj1 (proj2 (prepare_auth_resolves (stub_runtime unreachable)
                           [("type", PStr "bearer"); ("token", PStr "abc.def")]))
             eq_refl eq_refl).
  - exact (proj2 (proj2 (prepare_auth_resolves (stub_runtime unreachable)
                           [("type", PStr "api_key"); ("key", PStr "k-1")]))
             eq_refl eq_refl eq_refl).
Defined.

(** X3. A descriptor whose [type] is none of [basic], [bearer] and
    [api_key] raises the [ValueError] "Unsupported auth type: <type>",
    whatever other fields it has. *)
Theorem prepare_auth_unknown_type (W : Runtime) (d : pydict) (t : pyval) :
  dict_get d "type" = Some t ->
  eq_str t "basic" = false -> eq_str t "bearer" = false ->
  eq_str t "api_key" = false ->
  _prepare_auth W (PDict d)
  = Raise (ValueError ("Unsupported auth type: " ++ py_str W t)).
Proof.
  intros Ht H1 H2 H3. unfold _prepare_auth. cbn [py_get obind].
  rewrite !(get_default_some d "type" _ _ Ht), H1, H2, H3. reflexivity.
Qed.

Lemma prepare_auth_unknown_type_witness :
  _prepare_auth (stub_runtime unreachable)
    (PDict [("type", PStr "oauth2"); ("token", PStr "abc.def")])
  = Raise (ValueError "Unsupported auth type: oauth2").
Proof.
  exact (prepare_auth_unknown_type (stub_runtime unreachable)
           [("type", PStr "oauth2"); ("token", PStr "abc.def")] (PStr "oauth2")
           eq_refl eq_refl eq_refl eq_refl).
Defined.

(** ** Status validation *)

(** X4. Against a list of expected codes, validation passes exactly when
    some element equals the status as Python compares numbers (so [200.0]
    and, for status 1, [True] match), and raises the unexpected-status
    [ValueError] otherwise. *)
Theorem validate_response_membership
  (W : Runtime) (response : httpx.Response) (items : list pyval) :
  ((exists v, In v items /\ eq_int v (httpx.status_code response) = true) ->
   _validate_response W response (PList items) = Ok tt) /\
  ((forall v, In v items -> eq_int v (httpx.status_code response) = false) ->
   _validate_response W response (PList items)
   = Raise (unexpected_status W (httpx.status_code response) (PList items))).
Proof.
  unfold _validate_response. cbn [not_in obind]. split.
  - intros H. apply existsb_exists in H. rewrite H. reflexivity.
  - intros H.
    destruct (existsb (fun v => eq_int v (httpx.status_code response)) items)
      eqn:E; [|reflexivity].
    apply existsb_exists in E. destruct E as (v & Hin & Hv).
    rewrite (H v Hin) in Hv. discriminate.
Qed.

Lemma validate_response_membership_witness :
  _validate_response (stub_runtime unreachable) ok_json
    (PList [PInt 201; PFloat (200 # 1)]) = Ok tt.
Proof.
  apply (proj1 (validate_response_membership (stub_runtime unreachable)
                  ok_json [PInt 201; PFloat (200 # 1)])).
  exists (PFloat (200 # 1)). split; [cbn; auto | reflexivity].
Defined.

(** ** Building and sending one request *)

Lemma obind_ok {A B : Type} (o : outcome A) (f : A -> outcome B) (b : B) :
  obind o f = Ok b -> exists a, o = Ok a /\ f a = Ok b.
Proof. destruct o as [a|e]; cbn; [eauto | discriminate]. Qed.

(** X5. The arguments of the call: the method and URL as given, the
    headers and query parameters of the descriptor ([{}] when absent), and at
    most one body: a truthy [json] goes alone even when [data] is there too,
    [data] goes only when [json] is falsy, and a falsy [timeout] (absent,
    [None], [0]) sets no override. *)
Theorem request_kwargs_body
  (W : Runtime) (method : string) (u : pyval) (d : pydict)
  (kwargs : httpx.Request) :
  request_kwargs W method u (PDict d) = Ok kwargs ->
  httpx.req_method kwargs = method /\
  httpx.req_url kwargs = u /\
  httpx.req_headers kwargs = Some (dict_get_default d "headers" (PDict [])) /\
  httpx.req_params kwargs = Some (dict_get_default d "params" (PDict [])) /\
  (httpx.req_json kwargs = None \/ httpx.req_data kwargs = None) /\
  (httpx.req_json kwargs
   = if truthy (dict_get_default d "json" PNone)
     then Some (dict_get_default d "json" PNone) else None) /\
  (httpx.req_data kwargs
   = if truthy (dict_get_default d "json" PNone) then None
     else if truthy (dict_get_default d "data" PNone)
          then Some (dict_get_default d "data" PNone) else None) /\
  (httpx.req_timeout kwargs
   = if truthy (dict_get_default d "timeout" PNone)
     then Some (dict_get_default d "timeout" PNone) else None) /\
  (truthy (dict_get_default d "auth" PNone) = false ->
   httpx.req_auth kwargs = None).
Proof.
  unfold request_kwargs. cbn [py_get py_getitem obind].
  assert (G : forall k, truthy (dict_get_default d k PNone) = true ->
                        dict_get d k = Some (dict_get_default d k PNone)).
  { intros k. unfold dict_get_default.
    destruct (dict_get d k); [reflexivity | discriminate]. }
  destruct (truthy (dict_get_default d "json" PNone)) eqn:Tj;
    [rewrite (G _ Tj) | destruct (truthy (dict_get_default d "data" PNone)) eqn:Td;
                        [rewrite (G _ Td)|]];
    cbn [obind];
    (destruct (truthy (dict_get_default d "auth" PNone)) eqn:Ta;
     [rewrite (G _ Ta); cbn [obind];
      destruct (_prepare_auth W (dict_get_default d "auth" PNone)); cbn [obind];
      [|discriminate]
     |]);
    (destruct (truthy (dict_get_default d "timeout" PNone)) eqn:Tt;
     [rewrite (G _ Tt)|]);
    cbn [obind fst snd]; intros [= <-]; cbn; repeat split; auto; discriminate.
Qed.

Definition post_item : pydict :=
  [ ("method", PStr "post");
    ("url", PStr "https://api.example.com/items");
    ("json", PDict [("name", PStr "kettle")]);
    ("data", PStr "name=kettle");
    ("timeout", PInt 0) ].

Definition sent_post_item : httpx.Request :=
  httpx.mkRequest "POST" (PStr "https://api.example.com/items")
    (Some (PDict [])) (Some (PDict []))
    (Some (PDict [("name", PStr "kettle")])) None None None.

Lemma request_kwargs_body_witness :
  request_kwargs (stub_runtime unreachable) "POST"
    (PStr "https://api.example.com/items") (PDict post_item)
  = Ok sent_post_item
  /\ httpx.req_json sent_post_item = Some (PDict [("name", PStr "kettle")])
  /\ httpx.req_data sent_post_item = None
  /\ httpx.req_timeout sent_post_item = None.
Proof.
  pose proof (request_kwargs_body (stub_runtime unreachable) "POST"
                (PStr "https://api.example.com/items") post_item
                sent_post_item eq_refl)
    as (_ & _ & _ & _ & _ & Hj & Hd & Ht & _).
  split; [reflexivity|]. split; [exact Hj|]. split; [exact Hd | exact Ht].
Defined.


Lemma dict_get_set_same {V : Type} (d : list (string * V)) (k : string) (v : V) :
  dict_get (dict_set d k v) k = Some v.
Proof.
  induction d as [|[k0 v0] d IH]; cbn.
  - rewrite String.eqb_refl. reflexivity.
  - destruct (String.eqb_spec k0 k) as [->|N]; cbn.
    + rewrite String.eqb_refl. reflexivity.
    + destruct (String.eqb_spec k0 k); [contradiction | exact IH].
Qed.

Lemma logged_ticks m self : ticks (logged m self) = ticks self.
Proof. apply logged_frame. Qed.

Lemma logged_logs m self : logs (logged m self) = (logs self ++ [m])%list.
Proof. apply logged_frame. Qed.

Lemma logged_config m self : config (logged m self) = config self.
Proof. apply logged_frame. Qed.

Ltac sent_simpl :=
  repeat first
    [ rewrite logged_sent
    | progress cbn [sent set_ticks set_sent set_logs set_config
                    set_client set_start_time set_working_directory] ].

(** X6. There is one attempt.  Once the request is built, [_make_request]
    hands exactly one call to the client, whatever the configuration says
    about retries and whatever comes back; when the client raises, that
    error is raised on, unchanged, and nothing more is sent. *)
Theorem make_request_single_attempt
  (W : Runtime) (d : pydict) (self : plugin) (m : string) (u : pyval)
  (kwargs : httpx.Request) (c : httpx.AsyncClient) :
  dict_get d "method" = Some (PStr m) ->
  dict_get d "url" = Some u -> truthy u = true ->
  request_kwargs W (str_upper m) u (PDict d) = Ok kwargs ->
  client self = Some c ->
  exists result self',
    _make_request W (PDict d) self = (result, self') /\
    sent self' = (sent self ++ [kwargs])%list /\
    forall e,
      transport W c (List.length (sent self)) kwargs = Raise e ->
      result = Raise e.
Proof.
  intros Hm Hu Tu Hk Hc.
  unfold _make_request. cbn [py_getitem py_get]. rewrite Hm, Hu.
  rewrite bind_ok. cbn [py_upper]. rewrite !bind_ok, Tu. cbn [negb].
  rewrite bind_log, Hk, bind_ok, bind_now.
  unfold bind at 1, client_call. cbn [client sent set_ticks].
  rewrite logged_client, Hc, logged_sent.
  destruct (transport W c (List.length (sent self)) kwargs) as [response|e].
  - rewrite bind_now, bind_log, bind_ok.
    destruct (truthy (dict_get_default d "validateResponse" (PBool true))).
    + rewrite bind_assoc, bind_ok.
      destruct (_validate_response W response _) as [[]|e].
      * eexists. eexists. split; [reflexivity|].
        split; [|discriminate].
        sent_simpl. reflexivity.
      * eexists. eexists. split; [reflexivity|].
        split; [|discriminate].
        sent_simpl. reflexivity.
    + eexists. eexists. split; [reflexivity|]. split; [|discriminate].
      sent_simpl. reflexivity.
  - eexists. eexists. split; [reflexivity|]. split.
    + sent_simpl. reflexivity.
    + intros e' [= ->]. reflexivity.
Qed.

Lemma make_request_single_attempt_witness :
  exists result self',
    _make_request (stub_runtime unreachable) (PDict get_items)
      (ready_plugin (stub_runtime unreachable))
    = (result, self') /\
    sent self' = [sent_get_items] /\
    result = Raise (LibraryError "ConnectError" "All connection attempts failed").
Proof.
  destruct (make_request_single_attempt
              (stub_runtime unreachable) get_items
              (ready_plugin (stub_runtime unreachable))
              "get" (PStr "https://api.example.com/items/7") sent_get_items
              (httpx.mkAsyncClient (PInt 30) (PBool true) (PBool true)
                 [("User-Agent", PStr "DevFlow-ApiIntegration/1.0")] false)
              eq_refl eq_refl eq_refl eq_refl eq_refl)
    as (result & self' & Run & Sent & Err).
  exists result, self'. split; [exact Run|]. split; [exact Sent|].
  apply Err. reflexivity.
Defined.

(** X7. When the response comes back and either validation is switched off
    or the status is accepted, [_make_request] returns the classified
    response with [attempt = 1] and [requestTime] the time between the two
    clock readings around the call, in milliseconds; [success] is
    [status < 400] whatever the expected list says. *)
Theorem make_request_returns
  (W : Runtime) (d : pydict) (self : plugin) (m : string) (u : pyval)
  (kwargs : httpx.Request) (c : httpx.AsyncClient) (response : httpx.Response) :
  dict_get d "method" = Some (PStr m) ->
  dict_get d "url" = Some u -> truthy u = true ->
  request_kwargs W (str_upper m) u (PDict d) = Ok kwargs ->
  client self = Some c ->
  transport W c (List.length (sent self)) kwargs = Ok response ->
  (truthy (dict_get_default d "validateResponse" (PBool true)) = false \/
   _validate_response W response
     (dict_get_default d "expectedStatus" (PList [PInt 200])) = Ok tt) ->
  exists result self',
    _make_request W (PDict d) self = (Ok result, self') /\
    result
    = dict_set
        (dict_set (_parse_response W response) "requestTime"
           (PFloat (elapsed_ms (clock W (ticks self))
                      (clock W (S (ticks self))))))
        "attempt" (PInt 1) /\
    dict_get result "attempt" = Some (PInt 1) /\
    dict_get result "status" = Some (PInt (httpx.status_code response)) /\
    dict_get result "success"
    = Some (PBool (httpx.status_code response <? 400)).
Proof.
  intros Hm Hu Tu Hk Hc Ht Hv.
  unfold _make_request. cbn [py_getitem py_get]. rewrite Hm, Hu.
  rewrite bind_ok. cbn [py_upper]. rewrite !bind_ok, Tu. cbn [negb].
  rewrite bind_log, Hk, bind_ok, bind_now.
  unfold bind at 1, client_call. cbn [client sent set_ticks].
  rewrite logged_client, Hc, logged_sent, Ht.
  rewrite bind_now, bind_log, bind_ok. cbn [ticks set_sent set_ticks].
  rewrite !logged_ticks.
  assert (F : forall r : pydict,
             r = dict_set
                   (dict_set (_parse_response W response) "requestTime"
                      (PFloat (elapsed_ms (clock W (ticks self))
                                 (clock W (S (ticks self))))))
                   "attempt" (PInt 1) ->
             dict_get r "attempt" = Some (PInt 1) /\
             dict_get r "status" = Some (PInt (httpx.status_code response)) /\
             dict_get r "success"
             = Some (PBool (httpx.status_code response <? 400))).
  { intros r ->. rewrite dict_get_set_same.
    rewrite !dict_get_set_other by discriminate.
    split; [reflexivity | apply parse_response_status]. }
  destruct (truthy (dict_get_default d "validateResponse" (PBool true))) eqn:Tv.
  - destruct Hv as [Hv|Hv]; [discriminate|].
    rewrite bind_assoc, bind_ok, Hv.
    eexists. eexists. split; [reflexivity|]. split; [reflexivity|].
    apply F. reflexivity.
  - eexists. eexists. split; [reflexivity|]. split; [reflexivity|].
    apply F. reflexivity.
Qed.

Lemma make_request_returns_witness :
  exists result self',
    _make_request (stub_runtime (always ok_json)) (PDict get_items)
      (ready_plugin (stub_runtime (always ok_json)))
    = (Ok result, self') /\
    dict_get result "attempt" = Some (PInt 1) /\
    dict_get result "status" = Some (PInt 200) /\
    dict_get result "success" = Some (PBool true).
Proof.
  destruct (make_request_returns
              (stub_runtime (always ok_json)) get_items
              (ready_plugin (stub_runtime (always ok_json)))
              "get" (PStr "https://api.example.com/items/7") sent_get_items
              (httpx.mkAsyncClient (PInt 30) (PBool true) (PBool true)
                 [("User-Agent", PStr "DevFlow-ApiIntegration/1.0")] false)
              ok_json
              eq_refl eq_refl eq_refl eq_refl eq_refl eq_refl
              (or_intror eq_refl))
    as (result & self' & Run & _ & A & S & Y).
  exists result, self'. auto.
Defined.

(** ** What a method may change

    [framed R m]: whatever [m] does, the object it leaves is related by [R]
    to the one it started from.  The lemmas below hold for every relation
    that is reflexive and transitive and allows a log line, a clock reading
    and a call handed to the client. *)

Section Frame.

Variable W : Runtime.
Variable R : plugin -> plugin -> Prop.

Hypothesis R_refl : forall s, R s s.
Hypothesis R_trans : forall a b c, R a b -> R b c -> R a c.
Hypothesis R_log : forall m s, R s (logged m s).
Hypothesis R_tick : forall s n, R s (set_ticks s n).
Hypothesis R_send : forall s r, R s (set_sent s (sent s ++ [r])%list).

Definition framed {A : Type} (m : M A) : Prop :=
  forall s o s', m s = (o, s') -> R s s'.

Lemma framed_ret {A : Type} (a : A) : framed (ret a).
Proof. intros s o s' [= _ <-]. apply R_refl. Qed.

Lemma framed_raise {A : Type} (e : exn) : framed (@raise A e).
Proof. intros s o s' [= _ <-]. apply R_refl. Qed.

Lemma framed_lift {A : Type} (x : outcome A) : framed (lift x).
Proof. intros s o s' [= _ <-]. apply R_refl. Qed.

Lemma framed_read {A : Type} (g : plugin -> A) : framed (read g).
Proof. intros s o s' [= _ <-]. apply R_refl. Qed.

Lemma framed_modify (g : plugin -> plugin) :
  (forall s, R s (g s)) -> framed (modify g).
Proof. intros H s o s' [= _ <-]. apply H. Qed.

Lemma framed_bind {A B : Type} (m : M A) (f : A -> M B) :
  framed m -> (forall a, framed (f a)) -> framed (bind m f).
Proof.
  intros Hm Hf s o s'. unfold bind.
  destruct (m s) as [[a|e] s1] eqn:E; intros H.
  - eapply R_trans; [exact (Hm _ _ _ E) | exact (Hf _ _ _ _ H)].
  - injection H as _ <-. exact (Hm _ _ _ E).
Qed.

Lemma framed_try {A : Type} (body : M A) (handler : exn -> M A) :
  framed body -> (forall e, framed (handler e)) ->
  framed (try_except body handler).
Proof.
  intros Hb Hh s o s'. unfold try_except.
  destruct (body s) as [[a|e] s1] eqn:E; intros H.
  - injection H as _ <-. exact (Hb _ _ _ E).
  - eapply R_trans; [exact (Hb _ _ _ E) | exact (Hh _ _ _ _ H)].
Qed.

Lemma framed_log (message : string) : framed (_log message).
Proof. intros s o s'. rewrite log_run. intros [= _ <-]. apply R_log. Qed.

Lemma framed_now : framed (now W).
Proof. intros s o s' [= _ <-]. apply R_tick. Qed.

Lemma framed_call (attr : string) (r : httpx.Request) :
  framed (client_call W attr r).
Proof.
  intros s o s'. unfold client_call.
  destruct (client s); intros [= _ <-]; [apply R_send | apply R_refl].
Qed.

Lemma framed_get (u : pyval) : framed (client_get W u).
Proof. apply framed_call. Qed.

Lemma framed_gather {A B : Type} (f : A -> M B) (items : list A) :
  (forall x, framed (f x)) -> framed (gather f items).
Proof.
  intros Hf. induction items as [|x rest IH]; cbn [gather].
  - apply framed_ret.
  - apply framed_bind; [apply Hf|]. intros r.
    apply framed_bind; [exact IH|]. intros rs. apply framed_ret.
Qed.

Ltac frame :=
  repeat first
    [ apply framed_ret | apply framed_raise | apply framed_lift
    | apply framed_read | apply framed_log | apply framed_now
    | apply framed_call | apply framed_get
    | apply framed_bind; [|intros]
    | apply framed_try; [|intros]
    | match goal with
      | |- framed (if ?b then _ else _) => destruct b
      | |- framed (match ?x with _ => _ end) => destruct x
      end ].

Lemma make_request_framed (operation : pyval) : framed (_make_request W operation).
Proof. unfold _make_request. frame. Qed.

Lemma make_single_request_framed (endpoint : pyval) :
  framed (make_single_request W endpoint).
Proof.
  unfold make_single_request.
  apply framed_try; [apply make_request_framed | intros; frame].
Qed.

Lemma make_batch_requests_framed (endpoints : pyval) :
  framed (_make_batch_requests W endpoints).
Proof.
  unfold _make_batch_requests.
  do 4 (apply framed_bind; [frame | intros]).
  apply framed_bind; [apply framed_gather, make_single_request_framed | intros].
  frame.
Qed.

Lemma test_endpoint_framed (operation : pyval) :
  framed (_test_endpoint W operation).
Proof. unfold _test_endpoint. frame. Qed.

Lemma validate_webhook_framed (webhook : pyval) :
  framed (_validate_webhook W webhook).
Proof. unfold _validate_webhook. frame. Qed.

Lemma health_check_framed (u : pyval) : framed (_health_check W u).
Proof. unfold _health_check. frame. Qed.

Lemma perform_operation_framed (operation : pyval) :
  framed (_perform_operation W operation).
Proof.
  unfold _perform_operation.
  apply framed_bind; [frame | intros op_type].
  repeat match goal with
         | |- framed (if ?b then _ else _) => destruct b
         end;
    repeat first
      [ apply make_request_framed | apply make_batch_requests_framed
      | apply test_endpoint_framed | apply validate_webhook_framed
      | apply health_check_framed
      | apply framed_ret | apply framed_raise | apply framed_lift
      | apply framed_bind; [|intros] ].
Qed.

(** The steps of an invocation around the operation also set the
    configuration, the working directory and the client. *)
Hypothesis R_config : forall s x, R s (set_config s x).
Hypothesis R_cwd : forall s x, R s (set_working_directory s x).
Hypothesis R_client : forall s x, R s (set_client s x).

Lemma parse_context_framed (context : pydict) : framed (_parse_context W context).
Proof.
  unfold _parse_context.
  match goal with
  | |- framed (match ?x with _ => _ end) => destruct x
  end; try apply framed_raise.
  apply framed_bind; [apply framed_modify; intros; apply R_config | intros].
  apply framed_bind; [apply framed_modify; intros; apply R_cwd | intros].
  frame.
Qed.

Lemma init_client_framed : framed _init_client.
Proof.
  unfold _init_client.
  do 5 (apply framed_bind; [frame | intros]).
  apply framed_bind; [apply framed_modify; intros; apply R_client | intros].
  frame.
Qed.

(** From its first log line on, the body of the [try] is framed. *)
Lemma try_body_framed (context : pydict) (s s' : plugin) (o : outcome pydict) :
  try_body W context s = (o, s') ->
  R (logged "ApiIntegration plugin execution started" s) s'.
Proof.
  unfold try_body. rewrite bind_log.
  match goal with
  | |- bind ?m ?k ?p = _ -> _ =>
      intros H; apply (fun F : framed (bind m k) => F _ _ _ H)
  end.
  apply framed_bind; [apply parse_context_framed | intros].
  apply framed_bind; [apply init_client_framed | intros].
  do 3 (apply framed_bind; [frame | intros]).
  apply framed_bind; [apply perform_operation_framed | intros].
  frame.
Qed.

Lemma except_body_framed (e : exn) : framed (except_body W e).
Proof. unfold except_body. frame. Qed.

End Frame.

(** What an operation leaves alone: the log and the calls handed to the
    client only grow, and the client, the configuration, the start time and
    the working directory stay as they are. *)
Definition extends (s s' : plugin) : Prop :=
  (exists lines, logs s' = (logs s ++ lines)%list) /\
  (exists calls, sent s' = (sent s ++ calls)%list) /\
  client s' = client s /\
  config s' = config s /\
  start_time s' = start_time s /\
  working_directory s' = working_directory s.

Lemma extends_refl (s : plugin) : extends s s.
Proof.
  repeat split; try (exists []; symmetry; apply app_nil_r).
Qed.

Lemma extends_trans (a b c : plugin) : extends a b -> extends b c -> extends a c.
Proof.
  intros ((l1 & L1) & (r1 & S1) & C1 & G1 & T1 & D1)
         ((l2 & L2) & (r2 & S2) & C2 & G2 & T2 & D2).
  repeat split; try congruence.
  - exists (l1 ++ l2)%list. rewrite L2, L1, app_assoc. reflexivity.
  - exists (r1 ++ r2)%list. rewrite S2, S1, app_assoc. reflexivity.
Qed.

Lemma extends_log (m : string) (s : plugin) : extends s (logged m s).
Proof.
  destruct (logged_frame m s) as (S & C & T & G & St & L).
  unfold extends. rewrite S, C, G, St, L.
  repeat split; try (exists []; symmetry; apply app_nil_r).
  - exists [m]. reflexivity.
  - unfold logged, _log.
    destruct (eq_str _ "debug" || eq_str _ "info"); reflexivity.
Qed.

Lemma extends_tick (s : plugin) (n : nat) : extends s (set_ticks s n).
Proof.
  repeat split; try (exists []; symmetry; apply app_nil_r).
Qed.

Lemma extends_send (s : plugin) (r : httpx.Request) :
  extends s (set_sent s (sent s ++ [r])%list).
Proof.
  repeat split; try (exists []; symmetry; apply app_nil_r).
  exists [r]. reflexivity.
Qed.

(** X8. No operation touches what it was given: whichever handler runs and
    however it ends, the log of the object and the list of calls handed to
    the client have only grown, and the client, the configuration, the start
    time and the working directory are what they were. *)
Theorem perform_operation_extends
  (W : Runtime) (operation : pyval) (self : plugin) :
  extends self (snd (_perform_operation W operation self)).
Proof.
  destruct (_perform_operation W operation self) as [o s'] eqn:E.
  exact (perform_operation_framed W extends extends_refl extends_trans
           extends_log extends_tick extends_send operation _ _ _ E).
Qed.

(** ** The invocation around the operation *)

(** The log has only grown. *)
Definition grows (s s' : plugin) : Prop :=
  exists lines, logs s' = (logs s ++ lines)%list.

Lemma grows_same_logs (s s' : plugin) : logs s' = logs s -> grows s s'.
Proof. intros H. exists []. rewrite H. symmetry. apply app_nil_r. Qed.

Lemma grows_trans (a b c : plugin) : grows a b -> grows b c -> grows a c.
Proof.
  intros (l1 & L1) (l2 & L2). exists (l1 ++ l2)%list.
  rewrite L2, L1, app_assoc. reflexivity.
Qed.

Lemma grows_log (m : string) (s : plugin) : grows s (logged m s).
Proof. exists [m]. apply logged_logs. Qed.

Lemma closed_client (s : plugin) (c : httpx.AsyncClient) :
  client (closed s) = Some c -> httpx.is_closed c = true.
Proof.
  unfold closed, close_client, modify. cbn.
  destruct (client s) eqn:E; cbn.
  - intros [= <-]. reflexivity.
  - rewrite E. discriminate.
Qed.

(** X9. An invocation starts a new log and ends with the client closed:
    the log of the object afterwards begins with "ApiIntegration plugin
    execution started", whatever it held before, and a client, if the object
    has one, has been closed, on the failure path as on the success path. *)
Theorem execute_async_releases (W : Runtime) (context : pydict) (self : plugin) :
  returns (execute_async W context) self
    (fun _ self' =>
       (forall c, client self' = Some c -> httpx.is_closed c = true) /\
       exists rest,
         logs self' = "ApiIntegration plugin execution started" :: rest).
Proof.
  unfold execute_async, returns.
  rewrite bind_now, !bind_modify. fold (invoked W self).
  unfold try_finally, try_except.
  assert (G : forall o s1, try_body W context (invoked W self) = (o, s1) ->
                exists rest,
                  logs s1 = "ApiIntegration plugin execution started" :: rest).
  { intros o s1 E.
    apply (try_body_framed W grows) in E;
      try (intros; apply grows_same_logs; reflexivity);
      try exact grows_trans; try exact grows_log.
    destruct E as (l & L). rewrite logged_logs in L. cbn in L. eauto. }
  destruct (try_body W context (invoked W self)) as [[built|e] s1] eqn:E;
    destruct (G _ _ eq_refl) as (rest & L).
  - rewrite close_client_run. cbv beta iota.
    split; [apply closed_client|]. rewrite closed_logs. eauto.
  - destruct (except_body W e s1) as [o s2] eqn:E2.
    pose proof (except_body_envelope W e s1) as Ret. unfold returns in Ret.
    rewrite E2 in Ret. destruct o as [envelope|e']; [|contradiction].
    apply (except_body_framed W grows) in E2;
      try (intros; apply grows_same_logs; reflexivity);
      try exact grows_trans; try exact grows_log.
    destruct E2 as (l & L2).
    rewrite close_client_run. cbv beta iota.
    split; [apply closed_client|]. rewrite closed_logs, L2, L. cbn. eauto.
Qed.

(** ** Configuration *)

Lemma dict_get_absent {V : Type} (d : list (string * V)) (k : string) :
  ~ In k (map fst d) -> dict_get d k = None.
Proof.
  induction d as [|[k0 v0] d IH]; cbn; [reflexivity|].
  intros N. destruct (String.eqb_spec k0 k) as [->|_].
  - exfalso. apply N. left. reflexivity.
  - apply IH. intros H. apply N. right. exact H.
Qed.

(** Looking a key up after [{**base, **d}]: the entry of [d] when it has
    one, the entry of [base] otherwise. *)
Lemma dict_merge_lookup (base d : pydict) (k : string) :
  NoDup (map fst d) ->
  dict_get (dict_merge base d) k
  = match dict_get d k with
    | Some v => Some v
    | None => dict_get base k
    end.
Proof.
  unfold dict_merge. revert base.
  induction d as [|[k0 v0] d IH]; intros base N; cbn [fold_left fst snd].
  - reflexivity.
  - cbn [map fst] in N. apply NoDup_cons_iff in N. destruct N as [N0 N].
    rewrite (IH _ N). cbn [dict_get].
    destruct (String.eqb_spec k0 k) as [->|Nk].
    + rewrite (dict_get_absent d k N0). apply dict_get_set_same.
    + rewrite (dict_get_set_other base k0 k v0 Nk). reflexivity.
Qed.

(** The keys of [base] are still there after a merge. *)
Lemma dict_merge_keeps (base d : pydict) (k : string) :
  dict_get base k <> None -> dict_get (dict_merge base d) k <> None.
Proof.
  unfold dict_merge. revert base.
  induction d as [|[k0 v0] d IH]; intros base H; cbn [fold_left fst snd].
  - exact H.
  - apply IH. destruct (String.eqb_spec k0 k) as [->|Nk].
    + rewrite dict_get_set_same. discriminate.
    + rewrite (dict_get_set_other base k0 k v0 Nk). exact H.
Qed.

(** Line 90: the mapping merged over the defaults. *)
Definition context_overrides (context : pydict) : pyval :=
  if truthy (dict_get_default context "configuration" (PDict []))
  then dict_get_default context "configuration" (PDict [])
  else dict_get_default context "executionParameters" (PDict []).

Lemma logged_working_directory m self :
  working_directory (logged m self) = working_directory self.
Proof.
  unfold logged, _log.
  destruct (eq_str _ "debug" || eq_str _ "info"); reflexivity.
Qed.

Lemma parse_context_run (W : Runtime) (context d : pydict) (self : plugin) :
  context_overrides context = PDict d ->
  exists s',
    _parse_context W context self = (Ok tt, s') /\
    config s' = dict_merge default_config d /\
    working_directory s'
    = dict_get_default context "workingDirectory" (PStr "/tmp") /\
    sent s' = sent self /\ client s' = client self /\
    exists lines, logs s' = (logs self ++ lines)%list.
Proof.
  intros H. unfold _parse_context. fold (context_overrides context). rewrite H.
  rewrite !bind_modify, bind_read. cbn [config set_working_directory set_config].
  cbn [py_getitem].
  destruct (dict_get (dict_merge default_config d) "defaultTimeout") as [t|] eqn:Et;
    [|exfalso; revert Et; apply dict_merge_keeps; discriminate].
  destruct (dict_get (dict_merge default_config d) "maxRetries") as [r|] eqn:Er;
    [|exfalso; revert Er; apply dict_merge_keeps; discriminate].
  rewrite bind_ok, bind_log, bind_ok, log_run.
  eexists. split; [reflexivity|].
  rewrite !logged_config, !logged_sent, !logged_client, !logged_logs,
    !logged_working_directory.
  cbn [config sent client logs working_directory set_working_directory
         set_config].
  repeat split. eexists. rewrite <- app_assoc. reflexivity.
Qed.

(** X10. The configuration of an invocation is the defaults overridden key
    by key: the overrides are [configuration] when it is truthy and
    [executionParameters] otherwise ([{}] when absent); a key they hold gets
    their value, every other key keeps its default, and the seven defaults
    are always there.  Overrides that are not a mapping raise [TypeError]
    and leave the object as it was. *)
Theorem parse_context_merges (W : Runtime) (context : pydict) (self : plugin) :
  (forall d,
     context_overrides context = PDict d -> NoDup (map fst d) ->
     returns (_parse_context W context) self
       (fun _ self' =>
          forall k,
            dict_get (config self') k
            = match dict_get d k with
              | Some v => Some v
              | None => dict_get default_config k
              end)) /\
  ((forall d, context_overrides context <> PDict d) ->
   _parse_context W context self
   = (Raise (TypeError ("'" ++ type_name (context_overrides context)
                        ++ "' object is not a mapping")),
      self)).
Proof.
  split.
  - intros d H N. unfold returns.
    destruct (parse_context_run W context d self H) as (s' & -> & C & _).
    intros k. rewrite C. apply dict_merge_lookup. exact N.
  - intros H. unfold _parse_context. fold (context_overrides context).
    destruct (context_overrides context); try reflexivity.
    exfalso. eapply H. reflexivity.
Qed.

Definition quiet_short_timeout : pydict :=
  [ ("configuration", PDict []);
    ("executionParameters",
     PDict [("defaultTimeout", PInt 5); ("logLevel", PStr "error")]) ].


Definition quiet_short_overrides : pydict :=
  [("defaultTimeout", PInt 5); ("logLevel", PStr "error")].

Lemma quiet_short_overrides_nodup : NoDup (map fst quiet_short_overrides).
Proof. cbn. repeat constructor; cbn; intuition discriminate. Qed.

Lemma parse_context_merges_witness :
  returns (_parse_context (stub_runtime unreachable) quiet_short_timeout)
    (fresh_plugin (stub_runtime unreachable))
    (fun _ self' =>
       forall k,
         dict_get (config self') k
         = match dict_get quiet_short_overrides k with
           | Some v => Some v
           | None => dict_get default_config k
           end).
Proof.
  exact (proj1 (parse_context_merges (stub_runtime unreachable)
                  quiet_short_timeout
                  (fresh_plugin (stub_runtime unreachable)))
           quiet_short_overrides eq_refl quiet_short_overrides_nodup).
Defined.

Lemma init_client_run (s : plugin) (t f v a : pyval) :
  dict_get (config s) "defaultTimeout" = Some t ->
  dict_get (config s) "followRedirects" = Some f ->
  dict_get (config s) "validateSsl" = Some v ->
  dict_get (config s) "userAgent" = Some a ->
  _init_client s
  = (Ok tt,
     logged "HTTP client initialized"
       (set_client s
          (Some (httpx.mkAsyncClient t f v [("User-Agent", a)] false)))).
Proof.
  intros Ht Hf Hv Ha. unfold _init_client.
  rewrite bind_read. cbn [py_getitem]. rewrite Ht, Hf, Hv, Ha.
  rewrite !bind_ok, bind_modify. apply log_run.
Qed.

Lemma present {V : Type} (d : list (string * V)) (k : string) :
  dict_get d k <> None -> exists v, dict_get d k = Some v.
Proof. destruct (dict_get d k); [eauto | contradiction]. Qed.

(** The object after [_parse_context] and [_init_client]. *)
Lemma configure_run (W : Runtime) (context d : pydict) (self : plugin) :
  context_overrides context = PDict d ->
  exists s' c,
    (_parse_context W context ;;; _init_client) self = (Ok tt, s') /\
    client s' = Some c /\
    httpx.is_closed c = false /\
    config s' = dict_merge default_config d /\
    dict_get (config s') "defaultTimeout" = Some (httpx.timeout c) /\
    dict_get (config s') "followRedirects" = Some (httpx.follow_redirects c) /\
    dict_get (config s') "validateSsl" = Some (httpx.verify c) /\
    (exists agent, dict_get (config s') "userAgent" = Some agent /\
                   httpx.default_headers c = [("User-Agent", agent)]) /\
    sent s' = sent self.
Proof.
  intros H.
  destruct (parse_context_run W context d self H)
    as (s1 & Run & C & _ & S & _ & _).
  destruct (present (config s1) "defaultTimeout") as (t & Ht);
    [rewrite C; apply dict_merge_keeps; discriminate|].
  destruct (present (config s1) "followRedirects") as (f & Hf);
    [rewrite C; apply dict_merge_keeps; discriminate|].
  destruct (present (config s1) "validateSsl") as (v & Hv);
    [rewrite C; apply dict_merge_keeps; discriminate|].
  destruct (present (config s1) "userAgent") as (a & Ha);
    [rewrite C; apply dict_merge_keeps; discriminate|].
  eexists. eexists.
  rewrite (bind_run _ _ _ _ _ Run), (init_client_run s1 t f v a Ht Hf Hv Ha).
  split; [reflexivity|].
  rewrite logged_client, logged_config, logged_sent.
  cbn [client config sent set_client httpx.is_closed httpx.timeout
         httpx.follow_redirects httpx.verify httpx.default_headers].
  rewrite <- C. repeat split; try assumption. eauto.
Qed.

(** What [httpx.AsyncClient] takes for the options of lines 101-106: a
    number as timeout, booleans as the redirect and TLS switches, an ASCII
    string as user agent. *)
Definition client_option_typed (k : string) (v : pyval) : bool :=
  if String.eqb k "defaultTimeout" then
    match v with PInt _ | PFloat _ => true | _ => false end
  else if String.eqb k "followRedirects" || String.eqb k "validateSsl" then
    match v with PBool _ => true | _ => false end
  else if String.eqb k "userAgent" then
    match v with PStr agent => is_ascii agent | _ => false end
  else true.

Definition client_options_typed (d : pydict) : bool :=
  forallb (fun kv => client_option_typed (fst kv) (snd kv)) d.

(** X11. After the configuration is read, [_init_client] finds every
    option it subscripts, whatever the overrides leave out: no lookup
    fails.  With overrides whose client options are of the kinds the
    library takes, the client is constructed from the override where there
    is one and from the default otherwise, with one header, the user agent;
    it is left open on the object, and nothing is sent. *)
Theorem client_from_configuration
  (W : Runtime) (context d : pydict) (self : plugin) :
  context_overrides context = PDict d ->
  NoDup (map fst d) ->
  client_options_typed d = true ->
  returns (_parse_context W context ;;; _init_client) self
    (fun _ self' =>
       exists c,
         client self' = Some c /\
         httpx.is_closed c = false /\
         httpx.timeout c = dict_get_default d "defaultTimeout" (PInt 30) /\
         httpx.follow_redirects c
         = dict_get_default d "followRedirects" (PBool true) /\
         httpx.verify c = dict_get_default d "validateSsl" (PBool true) /\
         httpx.default_headers c
         = [("User-Agent",
             dict_get_default d "userAgent"
               (PStr "DevFlow-ApiIntegration/1.0"))] /\
         sent self' = sent self).
Proof.
  intros H N _. unfold returns.
  destruct (configure_run W context d self H)
    as (s' & c & -> & Hc & Ho & C & Ht & Hf & Hv & (agent & Ha & Hh) & Hs).
  rewrite C, (dict_merge_lookup _ _ _ N) in Ht.
  rewrite C, (dict_merge_lookup _ _ _ N) in Hf.
  rewrite C, (dict_merge_lookup _ _ _ N) in Hv.
  rewrite C, (dict_merge_lookup _ _ _ N) in Ha.
  exists c. unfold dict_get_default.
  split; [exact Hc|]. split; [exact Ho|].
  split; [destruct (dict_get d "defaultTimeout"); cbn in Ht; congruence|].
  split; [destruct (dict_get d "followRedirects"); cbn in Hf; congruence|].
  split; [destruct (dict_get d "validateSsl"); cbn in Hv; congruence|].
  split; [|exact Hs].
  rewrite Hh. destruct (dict_get d "userAgent"); cbn in Ha; congruence.
Qed.

Lemma client_from_configuration_witness :
  returns (_parse_context (stub_runtime unreachable) quiet_short_timeout
           ;;; _init_client)
    (fresh_plugin (stub_runtime unreachable))
    (fun _ self' =>
       exists c,
         client self' = Some c /\
         httpx.is_closed c = false /\
         httpx.timeout c = PInt 5 /\
         httpx.follow_redirects c = PBool true /\
         httpx.verify c = PBool true /\
         httpx.default_headers c
         = [("User-Agent", PStr "DevFlow-ApiIntegration/1.0")] /\
         sent self' = []).
Proof.
  exact (client_from_configuration (stub_runtime unreachable)
           quiet_short_timeout quiet_short_overrides
           (fresh_plugin (stub_runtime unreachable)) eq_refl
           quiet_short_overrides_nodup eq_refl).
Defined.

Example short_timeout_client :
  client (snd ((_parse_context (stub_runtime unreachable) quiet_short_timeout
                ;;; _init_client) (fresh_plugin (stub_runtime unreachable))))
  = Some (httpx.mkAsyncClient (PInt 5) (PBool true) (PBool true)
            [("User-Agent", PStr "DevFlow-ApiIntegration/1.0")] false).
Proof. vm_compute. reflexivity. Qed.

(** ** Reading the operation *)

(** Line 111: the input data is [inputData], or the context itself when
    there is no such entry. *)
Definition input_data_of (context : pydict) : pyval :=
  dict_get_default context "inputData" (PDict context).

Definition operation_keys : list string :=
  [ "type"; "method"; "url"; "headers"; "params"; "data"; "json"; "auth";
    "timeout"; "retries"; "validateResponse"; "expectedStatus"; "endpoints";
    "webhook" ].

(** X12. What [_get_operation] makes of the input data.  Without a truthy
    [operation] it is a bare GET of [url], or of the placeholder address
    when there is none, and every other field of the input is ignored.
    With one, it is a dict of exactly fourteen entries that copies the
    input, with the method GET, validation on, the expected status [[200]],
    empty headers, parameters and endpoints where the input is silent.
    Input data that is not a dict raises [AttributeError]. *)
Theorem get_operation_shape (context : pydict) :
  (forall d,
     input_data_of context = PDict d ->
     truthy (dict_get_default d "operation" PNone) = false ->
     _get_operation context
     = Ok (PDict [ ("type", PStr "request");
                   ("method", PStr "GET");
                   ("url", dict_get_default d "url"
                             (PStr "https://httpbin.org/get")) ])) /\
  (forall d,
     input_data_of context = PDict d ->
     truthy (dict_get_default d "operation" PNone) = true ->
     exists op,
       _get_operation context = Ok (PDict op) /\
       map fst op = operation_keys /\
       dict_get op "type" = dict_get d "operation" /\
       dict_get op "method" = Some (dict_get_default d "method" (PStr "GET")) /\
       dict_get op "url" = Some (dict_get_default d "url" PNone) /\
       dict_get op "headers" = Some (dict_get_default d "headers" (PDict [])) /\
       dict_get op "params" = Some (dict_get_default d "params" (PDict [])) /\
       dict_get op "validateResponse"
       = Some (dict_get_default d "validateResponse" (PBool true)) /\
       dict_get op "expectedStatus"
       = Some (dict_get_default d "expectedStatus" (PList [PInt 200])) /\
       dict_get op "endpoints"
       = Some (dict_get_default d "endpoints" (PList [])) /\
       dict_get op "webhook" = Some (dict_get_default d "webhook" PNone)) /\
  ((forall d, input_data_of context <> PDict d) ->
   _get_operation context = Raise (no_attribute (input_data_of context) "get")).
Proof.
  unfold _get_operation. fold (input_data_of context).
  split; [|split].
  - intros d -> Hop. cbn [py_get].
    destruct (truthy (PDict d)); cbn [obind]; rewrite ?Hop;
      cbn [negb orb]; rewrite ?orb_true_r; reflexivity.
  - intros d -> Hop. cbn [py_get].
    assert (Td : truthy (PDict d) = true).
    { destruct d; [discriminate | reflexivity]. }
    rewrite Td. cbn [obind]. rewrite Hop. cbn [negb orb obind].
    eexists. split; [reflexivity|]. split; [reflexivity|].
    cbn [dict_get String.eqb Ascii.eqb Bool.eqb].
    repeat split. unfold dict_get_default in *.
    destruct (dict_get d "operation"); [reflexivity | discriminate].
  - intros H.
    destruct (input_data_of context) eqn:E;
      try (exfalso; eapply H; reflexivity);
      cbn [py_get truthy];
      repeat match goal with
             | |- context [if ?b then _ else _] => destruct b
             end; reflexivity.
Qed.

Definition bare_context : pydict :=
  [ ("inputData", PDict [("method", PStr "DELETE")]) ].

Lemma get_operation_shape_witness :
  _get_operation bare_context
  = Ok (PDict [ ("type", PStr "request");
                ("method", PStr "GET");
                ("url", PStr "https://httpbin.org/get") ]).
Proof.
  exact (proj1 (get_operation_shape bare_context)
           [("method", PStr "DELETE")] eq_refl eq_refl).
Defined.

(** ** An unsupported operation, end to end *)

Lemma closed_sent (s : plugin) : sent (closed s) = sent s.
Proof.
  unfold closed, close_client, modify. cbn.
  destruct (client s); reflexivity.
Qed.

Lemma try_body_unsupported
  (W : Runtime) (context d op : pydict) (t : pyval) (s : plugin) :
  context_overrides context = PDict d ->
  _get_operation context = Ok (PDict op) ->
  dict_get op "type" = Some t ->
  (forall k, In k supported_operations -> eq_str t k = false) ->
  exists s',
    try_body W context s
    = (Raise (ValueError ("Unsupported operation: " ++ py_str W t)), s') /\
    sent s' = sent s.
Proof.
  intros Hc Hg Ht Hn. unfold try_body. rewrite bind_log.
  destruct (parse_context_run W context d
              (logged "ApiIntegration plugin execution started" s) Hc)
    as (s1 & Run & C & _ & S1 & _ & _).
  rewrite (bind_run _ _ _ _ _ Run).
  destruct (present (config s1) "defaultTimeout") as (t0 & Ht0);
    [rewrite C; apply dict_merge_keeps; discriminate|].
  destruct (present (config s1) "followRedirects") as (f & Hf);
    [rewrite C; apply dict_merge_keeps; discriminate|].
  destruct (present (config s1) "validateSsl") as (v & Hv);
    [rewrite C; apply dict_merge_keeps; discriminate|].
  destruct (present (config s1) "userAgent") as (a & Ha);
    [rewrite C; apply dict_merge_keeps; discriminate|].
  rewrite (bind_run _ _ _ _ _ (init_client_run s1 t0 f v a Ht0 Hf Hv Ha)).
  rewrite Hg, bind_ok. cbn [py_getitem]. rewrite Ht, bind_ok, bind_log.
  unfold bind at 1, _perform_operation. cbn [py_getitem]. rewrite Ht, bind_ok.
  rewrite !Hn by (cbn; auto 10). cbn [raise].
  eexists. split; [reflexivity|].
  sent_simpl. rewrite S1. sent_simpl. reflexivity.
Qed.

Lemma except_body_sent (W : Runtime) (e : exn) (s s' : plugin)
  (o : outcome pydict) :
  except_body W e s = (o, s') -> sent s' = sent s.
Proof.
  unfold except_body.
  rewrite bind_now, bind_read, bind_log, bind_now, bind_read.
  intros [= _ <-]. sent_simpl. reflexivity.
Qed.

(** X13. An invocation whose operation type is not supported ends as a
    failure envelope with the message "API operation failed: Unsupported
    operation: <type>", and hands nothing to the client: the configuration
    is read and the client built and closed, and the dispatcher raises
    before any handler runs. *)
Theorem unsupported_operation_envelope
  (W : Runtime) (context d op : pydict) (t : pyval) (self : plugin) :
  context_overrides context = PDict d ->
  client_options_typed d = true ->
  _get_operation context = Ok (PDict op) ->
  dict_get op "type" = Some t ->
  (forall k, In k supported_operations -> eq_str t k = false) ->
  returns (execute_async W context) self
    (fun envelope self' =>
       dict_get envelope "success" = Some (PBool false) /\
       dict_get envelope "message"
       = Some (PStr ("API operation failed: Unsupported operation: "
                     ++ py_str W t)) /\
       sent self' = sent self).
Proof.
  intros Hc _ Hg Ht Hn. unfold execute_async, returns.
  rewrite bind_now, !bind_modify. fold (invoked W self).
  unfold try_finally, try_except.
  destruct (try_body_unsupported W context d op t (invoked W self) Hc Hg Ht Hn)
    as (s1 & -> & S1).
  pose proof (except_body_envelope W
                (ValueError ("Unsupported operation: " ++ py_str W t)) s1) as E.
  unfold returns in E.
  destruct (except_body W _ s1) as [[envelope|e] s2] eqn:E2; [|contradiction].
  destruct E as (_ & Hs & Hm & _).
  apply except_body_sent in E2.
  rewrite close_client_run. cbv beta iota.
  split; [exact Hs|]. split; [exact Hm|].
  rewrite closed_sent, E2, S1. reflexivity.
Qed.

Definition delete_everything_operation : pydict :=
  [ ("type", PStr "delete_everything"); ("method", PStr "GET");
    ("url", PStr "https://api.example.com/items");
    ("headers", PDict []); ("params", PDict []); ("data", PNone);
    ("json", PNone); ("auth", PNone); ("timeout", PNone); ("retries", PNone);
    ("validateResponse", PBool true); ("expectedStatus", PList [PInt 200]);
    ("endpoints", PList []); ("webhook", PNone) ].

Lemma unsupported_operation_envelope_witness :
  returns (execute_async (stub_runtime unreachable) delete_everything)
    (fresh_plugin (stub_runtime unreachable))
    (fun envelope self' =>
       dict_get envelope "success" = Some (PBool false) /\
       dict_get envelope "message"
       = Some (PStr "API operation failed: Unsupported operation: delete_everything") /\
       sent self' = []).
Proof.
  apply (unsupported_operation_envelope (stub_runtime unreachable)
           delete_everything [] delete_everything_operation
           (PStr "delete_everything")
           (fresh_plugin (stub_runtime unreachable))).
  - reflexivity.
  - reflexivity.
  - reflexivity.
  - reflexivity.
  - intros k Hk. cbn in Hk.
    destruct Hk as [<-|[<-|[<-|[<-|[<-|[]]]]]]; reflexivity.
Defined.

(** ** The report of the endpoint diagnostics *)

(** An entry of a test, [None] when the test is not a dict. *)
Definition entry_field (test : pyval) (k : string) : option pyval :=
  match test with
  | PDict entries => dict_get entries k
  | _ => None
  end.

(** X14. The diagnostics of a descriptor with a [url] entry always return a
    report of three tests, "Connectivity", "Response Time" and one of "JSON
    Format", "Content Type", "Response Analysis", in that order.  The
    overall verdict is "failed" exactly when the connectivity test failed,
    the response-time test failed, or the JSON test failed, and "passed"
    otherwise: a slow response only warns, and a third request that raises
    is reported as a failed "Response Analysis" test without failing the
    verdict. *)
Theorem test_endpoint_report
  (W : Runtime) (d : pydict) (self : plugin) (u : pyval) :
  dict_get d "url" = Some u ->
  returns (_test_endpoint W (PDict d)) self
    (fun report _ =>
       exists t1 t2 t3 overall third,
         dict_get report "tests" = Some (PList [t1; t2; t3]) /\
         dict_get report "overall" = Some (PStr overall) /\
         entry_field t1 "name" = Some (PStr "Connectivity") /\
         entry_field t2 "name" = Some (PStr "Response Time") /\
         entry_field t3 "name" = Some (PStr third) /\
         In third ["JSON Format"; "Content Type"; "Response Analysis"] /\
         (overall = "failed" <->
          entry_field t1 "status" = Some (PStr "failed") \/
          entry_field t2 "status" = Some (PStr "failed") \/
          (third = "JSON Format" /\
           entry_field t3 "status" = Some (PStr "failed"))) /\
         (overall = "passed" \/ overall = "failed")).
Proof.
  intros Hu. unfold returns, _test_endpoint. cbn [py_getitem]. rewrite Hu.
  unfold bind, try_except, lift, ret, now, client_get.
  rewrite log_run. cbv beta iota.
  repeat (match goal with
          | |- context [_log ?m ?s] => rewrite (log_run m s)
          | |- context [client_call W ?a ?x ?s] =>
              destruct (client_call W a x s) as [[?|?] ?]
          | |- context [match response_json W ?r with _ => _ end] =>
              destruct (response_json W r)
          | |- context [if ?b then _ else _] => destruct b
          end; cbv beta iota).
  all: cbv beta iota.
  all: do 5 eexists.
  all: split; [reflexivity|].
  all: split; [reflexivity|].
  all: split; [reflexivity|].
  all: split; [reflexivity|].
  all: split; [reflexivity|].
  all: split; [cbn; auto|].
  all: cbn [entry_field dict_get String.eqb Ascii.eqb Bool.eqb test_entry].
  all: split; [|auto].
  all: split;
    [ intros H;
      first [ discriminate H
            | left; reflexivity
            | right; left; reflexivity
            | right; right; split; reflexivity ]
    | intros [H|[H|[H1 H2]]]; first [reflexivity | discriminate] ].
Qed.

Lemma test_endpoint_report_witness :
  returns (_test_endpoint (stub_runtime (always ok_json))
             (PDict [("url", PStr "https://api.example.com/items")]))
    (ready_plugin (stub_runtime (always ok_json)))
    (fun report _ =>
       exists t1 t2 t3 overall third,
         dict_get report "tests" = Some (PList [t1; t2; t3]) /\
         dict_get report "overall" = Some (PStr overall) /\
         entry_field t1 "name" = Some (PStr "Connectivity") /\
         entry_field t2 "name" = Some (PStr "Response Time") /\
         entry_field t3 "name" = Some (PStr third) /\
         In third ["JSON Format"; "Content Type"; "Response Analysis"] /\
         (overall = "failed" <->
          entry_field t1 "status" = Some (PStr "failed") \/
          entry_field t2 "status" = Some (PStr "failed") \/
          (third = "JSON Format" /\
           entry_field t3 "status" = Some (PStr "failed"))) /\
         (overall = "passed" \/ overall = "failed")).
Proof.
  exact (test_endpoint_report (stub_runtime (always ok_json))
           [("url", PStr "https://api.example.com/items")]
           (ready_plugin (stub_runtime (always ok_json)))
           (PStr "https://api.example.com/items") eq_refl).
Defined.

(** The third request alone fails: the report has a failed test and the
    verdict "passed". *)
Definition third_call_fails : nat -> httpx.Request -> outcome httpx.Response :=
  fun n _ =>
    match n with
    | S (S _) => Raise (LibraryError "ReadTimeout" "timed out")
    | _ => Ok ok_png
    end.

Example failed_analysis_passes :
  exists report,
    fst (_test_endpoint (stub_runtime third_call_fails)
           (PDict [("url", PStr "https://api.example.com/logo.png")])
           (ready_plugin (stub_runtime third_call_fails)))
    = Ok report /\
    dict_get report "overall" = Some (PStr "passed") /\
    dict_get report "tests"
    = Some (PList
              [ test_entry "Connectivity" "passed"
                  "Endpoint reachable - Status: 200";
                test_entry "Response Time" "warning" "Slow response: 1000.00ms";
                test_entry "Response Analysis" "failed"
                  "Error analyzing response: timed out" ]).
Proof. eexists. split; [vm_compute; reflexivity|]. split; reflexivity. Qed.

(** ** What makes a health report healthy *)

(** One [client.get] through the client of the object. *)
Lemma client_get_run (W : Runtime) (u : pyval) (s : plugin)
  (c : httpx.AsyncClient) :
  client s = Some c ->
  client_get W u s
  = (transport W c (List.length (sent s)) (httpx.get_request u),
     set_sent s (sent s ++ [httpx.get_request u])%list).
Proof. intros H. unfold client_get, client_call. rewrite H. reflexivity. Qed.

(** Lines 374-381: the connectivity check is healthy. *)
Definition reachable (r : outcome httpx.Response) : bool :=
  match r with
  | Ok response => httpx.status_code response <? 400
  | Raise _ => false
  end.

(** Lines 391-396: the request of the SSL check came back. *)
Definition answered (r : outcome httpx.Response) : bool :=
  match r with
  | Ok _ => true
  | Raise _ => false
  end.

(** Line 415: the security headers that the response carries. *)
Definition present_security_headers (response : httpx.Response) : list string :=
  filter (fun h => dict_mem (httpx.headers_dict (httpx.headers response)) h)
    security_headers.

(** Lines 417-418: the headers check is healthy. *)
Definition hardened (r : outcome httpx.Response) : bool :=
  match r with
  | Ok response =>
      2 <? Z.of_nat (List.length (present_security_headers response))
  | Raise _ => false
  end.

Ltac health_state Hc :=
  cbv beta iota zeta;
  repeat first
    [ rewrite logged_client
    | rewrite logged_sent
    | rewrite Hc
    | rewrite length_app
    | rewrite Nat.add_1_r
    | match goal with
      | |- context [_log ?m ?s] => rewrite (log_run m s)
      end
    | match goal with
      | H : transport _ _ _ _ = _ |- _ => rewrite H
      end
    | progress cbn [client sent set_ticks set_sent List.length]
    | progress cbv beta iota zeta ].

(** X15. With a client at hand, the health report of a string URL is
    "healthy" exactly when the first request comes back with a status below
    400, the request of the SSL check (made for "https://" URLs only) comes
    back at all, whatever its status, and the last request comes back with
    at least three of the four security headers. *)
Theorem health_check_healthy_iff
  (W : Runtime) (u : string) (self : plugin) (c : httpx.AsyncClient) :
  client self = Some c ->
  let n := List.length (sent self) in
  let g := httpx.get_request (PStr u) in
  returns (_health_check W (PStr u)) self
    (fun report _ =>
       dict_get report "overall" = Some (PStr "healthy") <->
       reachable (transport W c n g) = true /\
       if startswith u "https://"
       then answered (transport W c (S n) g) = true /\
            hardened (transport W c (S (S n)) g) = true
       else hardened (transport W c (S n) g) = true).
Proof.
  intros Hc n g. subst n g. unfold returns, _health_check.
  unfold bind, try_except, now, lift, ret, client_get, client_call.
  cbn [py_startswith]. unfold present_security_headers.
  repeat (health_state Hc;
          first
            [ match goal with
              | |- context [match transport W c ?k ?r with _ => _ end] =>
                  destruct (transport W c k r) eqn:?
              end
            | match goal with
              | |- context [if startswith u "https://" then _ else _] =>
                  destruct (startswith u "https://") eqn:?
              end ]).
  all: health_state Hc.
  all: cbn [dict_get String.eqb Ascii.eqb Bool.eqb reachable answered hardened].
  all: unfold present_security_headers.
  all: repeat match goal with
         | |- context [if ?b then _ else _] => destruct b eqn:?
         end.
  all: match goal with
       | |- context [overall_health ?l] =>
           let v := eval vm_compute in (overall_health l) in
           change (overall_health l) with v
       end.
  all: split;
    [ intros H; first [ discriminate H | repeat split; congruence ]
    | intros H; first [ reflexivity | exfalso; intuition congruence ] ].
Qed.

Lemma health_check_healthy_iff_witness :
  returns (_health_check (stub_runtime (always ok_json))
             (PStr "https://api.example.com/health"))
    (ready_plugin (stub_runtime (always ok_json)))
    (fun report _ =>
       dict_get report "overall" = Some (PStr "healthy") <->
       reachable (Ok ok_json) = true /\
       answered (Ok ok_json) = true /\ hardened (Ok ok_json) = true).
Proof.
  exact (health_check_healthy_iff (stub_runtime (always ok_json))
           "https://api.example.com/health"
           (ready_plugin (stub_runtime (always ok_json)))
           (httpx.mkAsyncClient (PInt 30) (PBool true) (PBool true)
              [("User-Agent", PStr "DevFlow-ApiIntegration/1.0")] false)
           eq_refl).
Defined.

(** ** Values of the wrong kind *)

(** X16. A health check needs its URL as a string.  For any other value the
    connectivity check is made and reported on, whatever comes back, and
    then [url.startswith] raises the [AttributeError] of the value: no
    report is returned, and with a client at hand exactly one request has
    been handed over. *)
Theorem health_check_needs_string
  (W : Runtime) (u : pyval) (self : plugin) :
  (forall s, u <> PStr s) ->
  exists self',
    _health_check W u self = (Raise (no_attribute u "startswith"), self') /\
    forall c, client self = Some c ->
              sent self' = (sent self ++ [httpx.get_request u])%list.
Proof.
  intros Hu. unfold _health_check.
  rewrite bind_log, bind_now.
  assert (Hs : py_startswith u "https://" = Raise (no_attribute u "startswith"))
    by (destruct u; try reflexivity; exfalso; eapply Hu; reflexivity).
  unfold bind, try_except, now, lift, ret, client_get, client_call.
  rewrite Hs.
  destruct (client _) as [c|] eqn:Hc;
    repeat first
      [ rewrite logged_client in Hc
      | progress cbn [client set_ticks set_sent] in Hc ].
  - destruct (transport W c _ _) as [r|e]; cbv beta iota;
      (eexists; split; [reflexivity|]);
      intros c' _; sent_simpl; reflexivity.
  - eexists. split; [reflexivity|]. intros c' Hc'. congruence.
Qed.

Lemma health_check_needs_string_witness :
  exists self',
    _health_check (stub_runtime (always ok_json)) (PInt 8080)
      (ready_plugin (stub_runtime (always ok_json)))
    = (Raise (AttributeError "'int' object has no attribute 'startswith'"),
       self') /\
    sent self' = [httpx.get_request (PInt 8080)].
Proof.
  destruct (health_check_needs_string (stub_runtime (always ok_json))
              (PInt 8080) (ready_plugin (stub_runtime (always ok_json)))
              (fun s (H : PInt 8080 = PStr s) =>
                 eq_ind (PInt 8080)
                   (fun v => match v with PInt _ => True | _ => False end)
                   I (PStr s) H))
    as (self' & Run & Sent).
  exists self'. split; [exact Run|].
  exact (Sent _ eq_refl).
Defined.

(** A [gather] whose items before [v] return raises what [v] raises. *)
Lemma gather_raises {A B : Type} (f : A -> M B) (pre : list A) (v : A)
  (post : list A) (s s1 s2 : plugin) (rs : list B) (e : exn) :
  gather f pre s = (Ok rs, s1) ->
  f v s1 = (Raise e, s2) ->
  gather f (pre ++ v :: post)%list s = (Raise e, s2).
Proof.
  revert s rs. induction pre as [|x pre IH]; intros s rs Hpre Hv.
  - injection Hpre as _ <-. cbn [app gather]. unfold bind at 1.
    rewrite Hv. reflexivity.
  - cbn [app gather] in *. unfold bind at 1 in Hpre. unfold bind at 1.
    destruct (f x s) as [[r|e'] s'] eqn:E; [|discriminate].
    unfold bind at 1 in Hpre. unfold bind at 1.
    destruct (gather f pre s') as [[rs'|e'] s''] eqn:G; [|discriminate].
    injection Hpre as _ ->.
    rewrite (IH s' rs' G Hv). reflexivity.
Qed.

(** An item that is not a dict escapes the handler of its own failure: the
    handler asks it for its [url]. *)
Lemma single_request_not_a_dict (W : Runtime) (v : pyval) (self : plugin) :
  (forall d, v <> PDict d) ->
  make_single_request W v self = (Raise (no_attribute v "get"), self).
Proof.
  intros Hv. unfold make_single_request, try_except, _make_request.
  unfold bind at 1.
  destruct v; try (exfalso; eapply Hv; reflexivity); reflexivity.
Qed.

(** X17. The items of a batch are isolated from each other only when they
    are dicts.  When the first item that is not a dict is [v], the batch
    raises the [AttributeError] of [v.get]: the handler of the item's own
    failure asks the item for its [url], so the error escapes it, and no
    batch result is returned, whatever the other items are. *)
Theorem batch_item_not_a_dict
  (W : Runtime) (pre : list pydict) (v : pyval) (post : list pyval)
  (self : plugin) :
  (forall d, v <> PDict d) ->
  fst (_make_batch_requests W (PList (map PDict pre ++ v :: post)%list) self)
  = Raise (no_attribute v "get").
Proof.
  intros Hv. unfold _make_batch_requests. cbn [py_len py_iter].
  rewrite bind_ok, bind_log, bind_now, bind_ok.
  unfold bind at 1.
  erewrite gather_raises;
    [ reflexivity
    | apply gather_items
    | apply single_request_not_a_dict; exact Hv ].
Qed.

Lemma batch_item_not_a_dict_witness :
  fst (_make_batch_requests (stub_runtime (always ok_json))
         (PList [PDict get_items; PStr "https://api.example.com/items";
                 PDict get_items])
         (ready_plugin (stub_runtime (always ok_json))))
  = Raise (AttributeError "'str' object has no attribute 'get'").
Proof.
  exact (batch_item_not_a_dict (stub_runtime (always ok_json)) [get_items]
           (PStr "https://api.example.com/items") [PDict get_items]
           (ready_plugin (stub_runtime (always ok_json)))
           (fun d (H : PStr "https://api.example.com/items" = PDict d) =>
              eq_ind (PStr "https://api.example.com/items")
                (fun x => match x with PStr _ => True | _ => False end)
                I (PDict d) H)).
Defined.

(** ** What is printed, and what stays offline *)

(** The object neither sent anything nor read the clock. *)
Definition offline (s s' : plugin) : Prop :=
  sent s' = sent s /\ ticks s' = ticks s.

Lemma offline_refl (s : plugin) : offline s s.
Proof. split; reflexivity. Qed.

Lemma offline_trans (a b c : plugin) : offline a b -> offline b c -> offline a c.
Proof. intros [S1 T1] [S2 T2]. split; congruence. Qed.

Lemma offline_log (m : string) (s : plugin) : offline s (logged m s).
Proof. split; [apply logged_sent | apply logged_ticks]. Qed.

(** X18. Webhook verification is offline: whatever the descriptor is and
    however verification ends, nothing has been handed to the HTTP client
    and the clock has not been read. *)
Theorem validate_webhook_offline
  (W : Runtime) (webhook : pyval) (self : plugin) :
  sent (snd (_validate_webhook W webhook self)) = sent self /\
  ticks (snd (_validate_webhook W webhook self)) = ticks self.
Proof.
  destruct (_validate_webhook W webhook self) as [o s'] eqn:E.
  exact (validate_webhook_framed W offline offline_refl offline_trans
           offline_log webhook _ _ _ E).
Qed.

(** Line 505: the configured level asks for printing. *)
Definition verbose (s : plugin) : bool :=
  eq_str (dict_get_default (config s) "logLevel" PNone) "debug"
  || eq_str (dict_get_default (config s) "logLevel" PNone) "info".

(** Line 506: what [_log] prints for a message. *)
Definition printed_line (message : string) : string :=
  "[ApiIntegration] " ++ message.

(** The log has grown by some lines, and the standard error stream by
    their printed form when the level asks for it, by nothing otherwise. *)
Definition prints (s s' : plugin) : Prop :=
  config s' = config s /\
  exists lines,
    logs s' = (logs s ++ lines)%list /\
    stderr s'
    = (stderr s ++ if verbose s then map printed_line lines else [])%list.

Lemma prints_same (s s' : plugin) :
  config s' = config s -> logs s' = logs s -> stderr s' = stderr s ->
  prints s s'.
Proof.
  intros C L E. split; [exact C|]. exists [].
  rewrite L, E, !app_nil_r. destruct (verbose s); cbn; rewrite ?app_nil_r; auto.
Qed.

Lemma prints_trans (a b c : plugin) : prints a b -> prints b c -> prints a c.
Proof.
  intros (C1 & l1 & L1 & E1) (C2 & l2 & L2 & E2).
  split; [congruence|]. exists (l1 ++ l2)%list.
  assert (V : verbose b = verbose a) by (unfold verbose; rewrite C1; reflexivity).
  rewrite L2, L1, E2, E1, V, app_assoc. split; [reflexivity|].
  destruct (verbose a); rewrite <- ?app_assoc, ?map_app, ?app_nil_r; reflexivity.
Qed.

Lemma prints_log (m : string) (s : plugin) : prints s (logged m s).
Proof.
  split; [apply logged_config|]. exists [m].
  split; [apply logged_logs|].
  unfold logged, _log, verbose.
  destruct (eq_str _ "debug" || eq_str _ "info"); cbn;
    rewrite ?app_nil_r; reflexivity.
Qed.

(** X19. What an operation prints.  Whichever handler runs and however it
    ends, the standard error stream has grown by exactly the lines added to
    the log, each behind "[ApiIntegration] ", when the configured
    [logLevel] is "debug" or "info", and is unchanged for any other level
    or none. *)
Theorem perform_operation_prints
  (W : Runtime) (operation : pyval) (self : plugin) :
  exists lines,
    logs (snd (_perform_operation W operation self))
    = (logs self ++ lines)%list /\
    stderr (snd (_perform_operation W operation self))
    = (stderr self
       ++ if verbose self then map printed_line lines else [])%list.
Proof.
  destruct (_perform_operation W operation self) as [o s'] eqn:E.
  apply (perform_operation_framed W prints) in E.
  - destruct E as (_ & lines & L & P). exists lines. auto.
  - intros s. apply prints_same; reflexivity.
  - exact prints_trans.
  - exact prints_log.
  - intros s n. apply prints_same; reflexivity.
  - intros s r. apply prints_same; reflexivity.
Qed.
